(** * ha-display-wake: wake handler, display probes, message callback

    A shallow embedding of [ha-display-wake.py]: the two display-state probe
    back ends (X11 tools, GNOME/Wayland D-Bus calls), the three-tier
    [handle_wake] and the MQTT [on_message] callback, followed by the
    properties of the specification that concern them.

    External processes are the only source of nondeterminism.  They are
    modelled by a [world] that answers every [subprocess.run] from the history
    of events so far; the program is written in a small state-and-exception
    monad over that history, so that "which probe operations were invoked"
    is a statement about the resulting event list. *)

From Stdlib Require Import ZArith NArith List String Ascii Bool Lia.
From Stdlib Require Import Strings.Byte.
From Stdlib Require Import DecimalPos DecimalN.
From stdpp Require Import base gmap strings list.

Set Default Proof Using "Type".

(** ** Python text *)

(** A Python [str] is a sequence of Unicode code points. *)
Abbreviation text := (list N).

Fixpoint text_of_string (s : string) : text :=
  match s with
  | EmptyString => []
  | String a s' => N_of_ascii a :: text_of_string s'
  end.

Coercion text_of_string : string >-> list.

Definition text_eqb (a b : text) : bool := bool_decide (a = b).

Module Py.

(** [str.isspace] of one code point; also the class [\s] of [re] on [str]
    patterns and the set removed by [str.strip()]. *)
Definition isspace (c : N) : bool :=
  ((9 <=? c) && (c <=? 13) || (28 <=? c) && (c <=? 32)
   || (c =? 0x85) || (c =? 0xA0) || (c =? 0x1680)
   || (0x2000 <=? c) && (c <=? 0x200A)
   || (c =? 0x2028) || (c =? 0x2029) || (c =? 0x202F)
   || (c =? 0x205F) || (c =? 0x3000))%N.

(** Removing from both ends the characters that satisfy [p]. *)
Fixpoint lstrip_by (p : N -> bool) (s : text) : text :=
  match s with
  | c :: s' => if p c then lstrip_by p s' else s
  | [] => []
  end.

Definition rstrip_by (p : N -> bool) (s : text) : text :=
  rev (lstrip_by p (rev s)).

Definition strip_by (p : N -> bool) (s : text) : text :=
  rstrip_by p (lstrip_by p s).

(** [s.strip()] *)
Definition strip (s : text) : text := strip_by isspace s.

(** [needle in hay] on [str]. *)
Fixpoint startswith (needle hay : text) : bool :=
  match needle, hay with
  | [], _ => true
  | _ :: _, [] => false
  | a :: needle', b :: hay' => (a =? b)%N && startswith needle' hay'
  end.

Fixpoint contains (needle hay : text) : bool :=
  startswith needle hay
  || match hay with
     | [] => false
     | _ :: hay' => contains needle hay'
     end.

(** *** [bytes.decode("utf-8", errors="replace")]

    Every ill-formed sequence is replaced by one U+FFFD: an invalid start
    byte alone, a start byte with the continuation bytes that were still
    valid (decoding resumes at the offending byte), or a sequence cut short
    by the end of the input. *)
Definition REPLACEMENT : N := 0xFFFD%N.

Definition is_cont (b : N) : bool := ((0x80 <=? b) && (b <=? 0xBF))%N.

(** whether [b2] may follow the start byte [b1] of a 3- or 4-byte sequence
    (excludes overlong forms, surrogates and code points above U+10FFFF) *)
Definition second_ok (b1 b2 : N) : bool :=
  (is_cont b2
   && negb ((b1 =? 0xE0) && (b2 <? 0xA0))
   && negb ((b1 =? 0xED) && (0xA0 <=? b2))
   && negb ((b1 =? 0xF0) && (b2 <? 0x90))
   && negb ((b1 =? 0xF4) && (0x90 <=? b2)))%N.

Fixpoint utf8_decode (bs : list N) : text :=
  match bs with
  | [] => []
  | b1 :: r1 =>
    if (b1 <? 0x80)%N then b1 :: utf8_decode r1
    else if (b1 <? 0xC2)%N then REPLACEMENT :: utf8_decode r1
    else if (b1 <? 0xE0)%N then
      match r1 with
      | [] => [REPLACEMENT]
      | b2 :: r2 =>
        if is_cont b2
        then ((b1 - 0xC0) * 64 + (b2 - 0x80))%N :: utf8_decode r2
        else REPLACEMENT :: utf8_decode r1
      end
    else if (b1 <? 0xF0)%N then
      match r1 with
      | [] => [REPLACEMENT]
      | b2 :: r2 =>
        if second_ok b1 b2 then
          match r2 with
          | [] => [REPLACEMENT]
          | b3 :: r3 =>
            if is_cont b3
            then ((b1 - 0xE0) * 4096 + (b2 - 0x80) * 64 + (b3 - 0x80))%N
                 :: utf8_decode r3
            else REPLACEMENT :: utf8_decode r2
          end
        else REPLACEMENT :: utf8_decode r1
      end
    else if (b1 <? 0xF5)%N then
      match r1 with
      | [] => [REPLACEMENT]
      | b2 :: r2 =>
        if second_ok b1 b2 then
          match r2 with
          | [] => [REPLACEMENT]
          | b3 :: r3 =>
            if is_cont b3 then
              match r3 with
              | [] => [REPLACEMENT]
              | b4 :: r4 =>
                if is_cont b4
                then ((b1 - 0xF0) * 262144 + (b2 - 0x80) * 4096
                      + (b3 - 0x80) * 64 + (b4 - 0x80))%N
                     :: utf8_decode r4
                else REPLACEMENT :: utf8_decode r3
              end
            else REPLACEMENT :: utf8_decode r2
          end
        else REPLACEMENT :: utf8_decode r1
      end
    else REPLACEMENT :: utf8_decode r1
  end.

(** [payload.decode("utf-8", errors="replace")] for a [bytes] payload *)
Definition decode (payload : list byte) : text :=
  utf8_decode (map Byte.to_N payload).

(** *** Interpreter tables

    The Unicode character database and the interpreter's limit on the
    length of integer literals are not part of the program.  They are
    taken as given, for the non-ASCII code points only: the ASCII range is
    fixed below. *)
Record tables := {
  (** [unicodedata.decimal] of a non-ASCII code point *)
  uni_decimal : N -> option N;
  (** [str.isalnum] of a non-ASCII code point *)
  uni_alnum : N -> bool;
  (** whether [int()] accepts a literal with that many digits
      ([sys.get_int_max_str_digits]) *)
  int_digits_ok : nat -> bool
}.

Definition ascii_decimal (c : N) : option N :=
  if ((48 <=? c) && (c <=? 57))%N then Some (c - 48)%N else None.

Definition ascii_alnum (c : N) : bool :=
  ((48 <=? c) && (c <=? 57) || (65 <=? c) && (c <=? 90)
   || (97 <=? c) && (c <=? 122))%N.

Section WithTables.
Variable T : tables.

(** decimal digit value of a code point, if it has one *)
Definition todecimal (c : N) : option N :=
  if (c <? 128)%N then ascii_decimal c else uni_decimal T c.

(** *** [int(s)] on a [str]

    Whitespace around the literal is skipped: the ASCII blanks, and any
    non-ASCII whitespace, which is turned into a blank first.  Then: an
    optional sign, decimal digits, single underscores between digits.
    Non-ASCII decimal digits count as digits; whitespace inside the
    literal is rejected. *)
Definition int_space (c : N) : bool :=
  if (c <? 127)%N then ((9 <=? c) && (c <=? 13) || (c =? 32))%N
  else isspace c.

Definition int_digit (c : N) : option N :=
  if (c <? 127)%N then ascii_decimal c
  else if isspace c then None
  else todecimal c.

Fixpoint int_digits (acc : Z) (n : nat) (after_digit : bool) (s : text)
  : option (Z * nat) :=
  match s with
  | [] => if after_digit then Some (acc, n) else None
  | c :: s' =>
    if (c =? 95)%N then
      if after_digit then int_digits acc n false s' else None
    else
      match int_digit c with
      | Some d => int_digits (10 * acc + Z.of_N d) (S n) true s'
      | None => None
      end
  end.

Definition int_unsigned (s : text) : option Z :=
  match int_digits 0 0 false s with
  | Some (v, n) => if int_digits_ok T n then Some v else None
  | None => None
  end.

(** [None] stands for [ValueError]. *)
Definition int (s : text) : option Z :=
  match strip_by int_space s with
  | 43%N :: s' => int_unsigned s'
  | 45%N :: s' => Z.opp <$> int_unsigned s'
  | s' => int_unsigned s'
  end.

(** *** The fragment of [re] the program uses

    Literal characters and greedy [+] over a character class, with at
    most one capturing group, searched leftmost-first with
    backtracking. *)
Inductive char_class := cls_space | cls_digit | cls_word.

Definition in_class (k : char_class) (c : N) : bool :=
  match k with
  | cls_space => isspace c
  | cls_digit => bool_decide (is_Some (todecimal c))
  | cls_word =>
    if (c <? 128)%N then ascii_alnum c || (c =? 95)%N else uni_alnum T c
  end.

Inductive re_item :=
| re_lit (c : N)
| re_plus (capture : bool) (k : char_class).

Definition re_lits (s : string) : list re_item :=
  map re_lit (text_of_string s).

(** Greedy [+] over the class [k]: take at least one character, as many as
    possible first, and give characters back one at a time while what
    follows, [rest], does not match. *)
Fixpoint greedy (k : N -> bool) (rest : text -> text -> option text)
  (taken : text) (s : text) : option text :=
  match s with
  | x :: s' =>
    if k x then
      match greedy k rest (taken ++ [x]) s' with
      | Some r => Some r
      | None => rest (taken ++ [x]) s'
      end
    else None
  | [] => None
  end.

(** [match_here re g s]: match [re] at the start of [s]; the result is
    the text of group 1 ([g] when the pattern has no group). *)
Fixpoint match_here (re : list re_item) (g : text) (s : text) {struct re}
  : option text :=
  match re with
  | [] => Some g
  | re_lit c :: re' =>
    match s with
    | x :: s' => if (x =? c)%N then match_here re' g s' else None
    | [] => None
    end
  | re_plus capture k :: re' =>
    greedy (in_class k)
      (fun taken s' => match_here re' (if capture then taken else g) s')
      [] s
  end.

(** [re.search(re, s)], giving [match.group(1)] *)
Fixpoint search (re : list re_item) (s : text) : option text :=
  match match_here re [] s with
  | Some g => Some g
  | None =>
    match s with
    | [] => None
    | _ :: s' => search re s'
    end
  end.

End WithTables.

(** *** Values of a parsed JSON document *)

(** A finite [float] is [m * 2^e]; comparison with an [int] is exact. *)
Inductive float :=
| float_nan
| float_inf (negative : bool)
| float_finite (m e : Z).

#[local] Unset Elimination Schemes.
Inductive value :=
| None_
| Bool (b : bool)
| Int (n : Z)
| Float (x : float)
| Str (s : text)
| List_ (l : list value)
| Dict (d : list (text * value)).
#[local] Set Elimination Schemes.

Inductive exn := SubprocessError | ValueError | TypeError.

(** [a < v] for an [int] [a]; ordering an [int] against anything that is
    not a number raises [TypeError]. *)
Definition int_lt_float (a : Z) (x : float) : bool :=
  match x with
  | float_nan => false
  | float_inf negative => negb negative
  | float_finite m e =>
    if (0 <=? e)%Z then (a <? m * 2 ^ e)%Z else (a * 2 ^ (- e) <? m)%Z
  end.

Definition int_lt (a : Z) (v : value) : exn + bool :=
  match v with
  | Int n => inr (a <? n)%Z
  | Bool b => inr (a <? (if b then 1 else 0))%Z
  | Float x => inr (int_lt_float a x)
  | None_ | Str _ | List_ _ | Dict _ => inl TypeError
  end.

End Py.

(** ** The outside world *)

(** The external commands the program runs, by argument vector. *)
Inductive command :=
| xprintidle                  (* xprintidle *)
| xset_q                      (* xset q *)
| xset_s_reset                (* xset s reset *)
| xset_dpms_force_on          (* xset dpms force on *)
| dbus_GetIdletime            (* org.gnome.Mutter.IdleMonitor.GetIdletime *)
| dbus_GetActive              (* org.gnome.ScreenSaver.GetActive *)
| dbus_SimulateUserActivity   (* org.gnome.ScreenSaver.SimulateUserActivity *)
| dbus_SetActive_false.       (* org.gnome.ScreenSaver.SetActive false *)

(** What [subprocess.run(..., timeout=5)] does: it returns the captured
    standard output (whatever the exit status), or it raises: the tool is
    missing, the 5 seconds ran out, the output does not decode. *)
Inductive outcome :=
| Completed (stdout : text)
| Failed.

Inductive message :=
| waking_display (idle : Z)
| resetting_idle_timer (idle : Z)
| xset_s_reset_failed
| xset_dpms_force_on_failed
| dbus_idle_reset_failed
| dbus_screen_wake_failed.

(** [Run c]: [subprocess.run] was called on [c], whatever came of it. *)
Inductive event :=
| Run (c : command)
| LogInfo (m : message)
| LogWarning (m : message).

(** The world answers a command from everything that happened before it. *)
Definition world := list event -> command -> outcome.

(** ** The monad: a history of events, and exceptions *)

Definition M (A : Type) : Type :=
  world -> list event -> (Py.exn + A) * list event.

Definition ret {A} (a : A) : M A := fun _ h => (inr a, h).

Definition raise {A} (e : Py.exn) : M A := fun _ h => (inl e, h).

Definition bind {A B} (m : M A) (k : A -> M B) : M B :=
  fun w h =>
    match m w h with
    | (inr a, h') => k a w h'
    | (inl e, h') => (inl e, h')
    end.

(** [try: body / except Exception: handler] *)
Definition try_except {A} (body : M A) (handler : Py.exn -> M A) : M A :=
  fun w h =>
    match body w h with
    | (inr a, h') => (inr a, h')
    | (inl e, h') => handler e w h'
    end.

Notation "'do' x <- m ; k" := (bind m (fun x => k))
  (at level 10, x name, m at level 100, k at level 200,
   format "'[v' 'do'  x  <-  m ; '/' k ']'").

Definition lift {A} (r : Py.exn + A) : M A := fun _ h => (r, h).

Definition or_raise {A} (e : Py.exn) (o : option A) : M A :=
  match o with
  | Some a => ret a
  | None => raise e
  end.

Definition subprocess_run (c : command) : M text :=
  fun w h =>
    match w h c with
    | Completed stdout => (inr stdout, h ++ [Run c])
    | Failed => (inl Py.SubprocessError, h ++ [Run c])
    end.

Definition log_info (m : message) : M unit :=
  fun _ h => (inr tt, h ++ [LogInfo m]).

Definition log_warning (m : message) : M unit :=
  fun _ h => (inr tt, h ++ [LogWarning m]).

(** ** The program *)

Section Program.

Variable T : Py.tables.

(** [os.environ.get("XDG_SESSION_TYPE", "x11")], read once at import *)
Variable SESSION_TYPE : string.

(** *** X11 display functions *)

Definition get_idle_seconds_x11 : M Z :=
  try_except
    (do stdout <- subprocess_run xprintidle;
     do n <- or_raise Py.ValueError (Py.int T (Py.strip stdout));
     ret (n / 1000)%Z)
    (fun _ => ret 0%Z).

(** [r"Monitor is (\w+)"] *)
Definition re_monitor : list Py.re_item :=
  Py.re_lits "Monitor is " ++ [Py.re_plus true Py.cls_word].

Definition is_screen_off_x11 : M bool :=
  try_except
    (do stdout <- subprocess_run xset_q;
     match Py.search T re_monitor stdout with
     | Some state => ret (negb (text_eqb state "On"))
     | None => ret false
     end)
    (fun _ => ret false).

Definition reset_idle_timer_x11 : M unit :=
  try_except
    (do _ <- subprocess_run xset_s_reset; ret tt)
    (fun _ => log_warning xset_s_reset_failed).

Definition wake_screen_x11 : M unit :=
  do _ <- try_except
    (do _ <- subprocess_run xset_dpms_force_on; ret tt)
    (fun _ => log_warning xset_dpms_force_on_failed);
  reset_idle_timer_x11.

(** *** Wayland/GNOME display functions *)

(** [r"uint64\s+(\d+)"] *)
Definition re_uint64 : list Py.re_item :=
  Py.re_lits "uint64"
  ++ [Py.re_plus false Py.cls_space; Py.re_plus true Py.cls_digit].

Definition get_idle_seconds_wayland : M Z :=
  do found <-
    try_except
      (do stdout <- subprocess_run dbus_GetIdletime;
       match Py.search T re_uint64 stdout with
       | Some digits =>
         do n <- or_raise Py.ValueError (Py.int T digits);
         ret (Some (n / 1000)%Z)
       | None => ret None
       end)
      (fun _ => ret None);
  match found with
  | Some seconds => ret seconds
  | None => ret 0%Z
  end.

Definition is_screen_off_wayland : M bool :=
  try_except
    (do stdout <- subprocess_run dbus_GetActive;
     ret (Py.contains "boolean true" stdout))
    (fun _ => ret false).

Definition reset_idle_timer_wayland : M unit :=
  try_except
    (do _ <- subprocess_run dbus_SimulateUserActivity; ret tt)
    (fun _ => log_warning dbus_idle_reset_failed).

Definition wake_screen_wayland : M unit :=
  try_except
    (do _ <- subprocess_run dbus_SetActive_false; ret tt)
    (fun _ => log_warning dbus_screen_wake_failed).

(** *** Unified interface *)

Definition is_wayland : bool := String.eqb SESSION_TYPE "wayland".

Definition get_idle_seconds : M Z :=
  if is_wayland then get_idle_seconds_wayland else get_idle_seconds_x11.

Definition is_screen_off : M bool :=
  if is_wayland then is_screen_off_wayland else is_screen_off_x11.

Definition reset_idle_timer : M unit :=
  if is_wayland then reset_idle_timer_wayland else reset_idle_timer_x11.

Definition wake_screen : M unit :=
  if is_wayland then wake_screen_wayland else wake_screen_x11.

(** The command behind each operation of the unified interface. *)
Definition idle_query : command :=
  if is_wayland then dbus_GetIdletime else xprintidle.

Definition power_query : command :=
  if is_wayland then dbus_GetActive else xset_q.

Definition reset_op : command :=
  if is_wayland then dbus_SimulateUserActivity else xset_s_reset.

Definition wake_op : command :=
  if is_wayland then dbus_SetActive_false else xset_dpms_force_on.

(** *** Wake signal handler *)

(** [config.get(key, default)] *)
Definition dict_get (config : gmap string Py.value) (key : string)
  (default : Py.value) : Py.value :=
  match config !! key with
  | Some v => v
  | None => default
  end.

Definition handle_wake (config : gmap string Py.value) : M unit :=
  let active_threshold := dict_get config "active_threshold" (Py.Int 30) in
  let screen_timeout := dict_get config "screen_timeout" (Py.Int 1200) in
  do idle <- get_idle_seconds;
  do active <- lift (Py.int_lt idle active_threshold);
  if active : bool then ret tt
  else
    do off <- is_screen_off;
    if off : bool then
      do _ <- log_info (waking_display idle);
      wake_screen
    else
      do _ <- log_info (resetting_idle_timer idle);
      reset_idle_timer.

(** *** MQTT callback *)

(** [_config] is the module-level dictionary [main] fills in before the
    client starts; [payload] is [msg.payload]. *)
Definition on_message (_config : gmap string Py.value) (payload : list byte)
  : M unit :=
  let payload := Py.strip (Py.decode payload) in
  if text_eqb payload "wake" then handle_wake _config else ret tt.

End Program.

(** ** Observing a run *)

(** The three actions of the specification's decision engine. *)
Inductive decision := Ignore | ResetIdleTimer | Wake.

Definition is_idle_query (c : command) : bool :=
  match c with xprintidle | dbus_GetIdletime => true | _ => false end.

Definition is_power_query (c : command) : bool :=
  match c with xset_q | dbus_GetActive => true | _ => false end.

Definition is_reset_op (c : command) : bool :=
  match c with
  | xset_s_reset | dbus_SimulateUserActivity => true
  | _ => false
  end.

Definition is_wake_op (c : command) : bool :=
  match c with
  | xset_dpms_force_on | dbus_SetActive_false => true
  | _ => false
  end.

Definition is_mutating (c : command) : bool := is_reset_op c || is_wake_op c.

(** whether a command of the given kind was run in a list of events *)
Definition ran (kind : command -> bool) (evs : list event) : bool :=
  existsb (fun e => match e with Run c => kind c | _ => false end) evs.

(** The handler returns nothing; what it decided shows in what it did: the
    screen-wake operation (which on X11 is followed by an idle reset), the
    silent idle reset alone, or neither. *)
Definition decision_taken (evs : list event) : decision :=
  if ran is_wake_op evs then Wake
  else if ran is_reset_op evs then ResetIdleTimer
  else Ignore.

(** the events a computation adds to the history [h] *)
Definition emitted {A} (m : M A) (w : world) (h : list event) : list event :=
  drop (length h) (snd (m w h)).

(** the value a computation returns, or the exception it raises *)
Definition returned {A} (m : M A) (w : world) (h : list event) : Py.exn + A :=
  fst (m w h).

(** The decision engine as section 4.2 of the specification words it:
    tier 1 "Active", tier 2 "Screen off", tier 3 "Idle but lit". *)
Definition spec_decision (idleSeconds active_threshold : Z) (screenOff : bool)
  : decision :=
  if (idleSeconds <? active_threshold)%Z then Ignore
  else if screenOff then Wake
  else ResetIdleTimer.

(** The "Monitor is <state>" token of the specification: [state] is the word
    that follows the first occurrence of "Monitor is " that a word character
    follows, taken as far as word characters go. *)
Definition monitor_token (T : Py.tables) (stdout state : text) : Prop :=
  exists before after : text,
    stdout = before ++ text_of_string "Monitor is " ++ state ++ after
    /\ state <> []
    /\ Forall (fun c => Py.in_class T Py.cls_word c = true) state
    /\ (forall c after', after = c :: after' ->
          Py.in_class T Py.cls_word c = false)
    /\ (forall before' c after',
          stdout = before' ++ text_of_string "Monitor is " ++ c :: after' ->
          (length before' < length before)%nat ->
          Py.in_class T Py.cls_word c = false).

(** A payload that is the literal "wake" once decoded and trimmed: the word
    with nothing but whitespace around it. *)
Definition wake_payload (payload : list byte) : Prop :=
  exists l r : text,
    Py.decode payload = l ++ text_of_string "wake" ++ r
    /\ Forall (fun c => Py.isspace c = true) l
    /\ Forall (fun c => Py.isspace c = true) r.

(** Tables with no non-ASCII entry and the interpreter's default limit of
    4300 digits, for the concrete runs below, which are on short ASCII
    texts. *)
Definition ascii_tables : Py.tables :=
  {| Py.uni_decimal := fun _ => None;
     Py.uni_alnum := fun _ => false;
     Py.int_digits_ok := fun n => (n <=? 4300)%nat |}.

(** A world that always answers the idle query and the power query the same
    way, and in which the mutating commands succeed and print nothing. *)
Definition constant_world (idle_out power_out : outcome) : world :=
  fun _ c =>
    if is_idle_query c then idle_out
    else if is_power_query c then power_out
    else Completed [].

Definition bytes_of_string (s : string) : list byte :=
  map byte_of_ascii (list_ascii_of_string s).

(** A configuration as [run_setup] writes it. *)
Definition office_config : gmap string Py.value :=
  list_to_map
    [("broker", Py.Str (text_of_string "homeassistant.local"));
     ("port", Py.Int 1883);
     ("username", Py.Str []);
     ("password", Py.Str []);
     ("room", Py.Str (text_of_string "office"));
     ("topic", Py.Str (text_of_string "ha-display-wake/office/command"));
     ("active_threshold", Py.Int 30);
     ("screen_timeout", Py.Int 1200)].

(** [xprintidle] printing a number of milliseconds, [xset q] reporting a
    monitor state *)
Definition x11_world (milliseconds monitor : string) : world :=
  constant_world
    (Completed (text_of_string milliseconds))
    (Completed (text_of_string "DPMS is Enabled  Monitor is "
                ++ text_of_string monitor)).

(** ** Setup: the DPMS timeout *)

(** The same fragment of [re] for patterns with several groups: a match
    gives the list of its groups, in order. *)
Module Re.

Section WithTables.
Variable T : Py.tables.

Fixpoint greedy {R} (k : N -> bool) (rest : text -> text -> option R)
  (taken : text) (s : text) : option R :=
  match s with
  | x :: s' =>
    if k x then
      match greedy k rest (taken ++ [x]) s' with
      | Some r => Some r
      | None => rest (taken ++ [x]) s'
      end
    else None
  | [] => None
  end.

Fixpoint match_here (re : list Py.re_item) (gs : list text) (s : text)
  {struct re} : option (list text) :=
  match re with
  | [] => Some gs
  | Py.re_lit c :: re' =>
    match s with
    | x :: s' => if (x =? c)%N then match_here re' gs s' else None
    | [] => None
    end
  | Py.re_plus capture k :: re' =>
    greedy (Py.in_class T k)
      (fun taken s' =>
         match_here re' (if capture then gs ++ [taken] else gs) s')
      [] s
  end.

(** [re.search(re, s)], giving [match.groups()] *)
Fixpoint search (re : list Py.re_item) (s : text) : option (list text) :=
  match match_here re [] s with
  | Some gs => Some gs
  | None =>
    match s with
    | [] => None
    | _ :: s' => search re s'
    end
  end.

End WithTables.

(** [match.group(i)] for [i >= 1]; a group the pattern does not have is an
    [IndexError]. *)
Definition group (gs : list text) (i : nat) : option text := gs !! (i - 1)%nat.

End Re.

Section Dpms.

Variable T : Py.tables.
Variable SESSION_TYPE : string.

(** [r"Standby:\s+(\d+)\s+Suspend:\s+(\d+)\s+Off:\s+(\d+)"] *)
Definition re_standby : list Py.re_item :=
  Py.re_lits "Standby:"
  ++ [Py.re_plus false Py.cls_space; Py.re_plus true Py.cls_digit;
      Py.re_plus false Py.cls_space]
  ++ Py.re_lits "Suspend:"
  ++ [Py.re_plus false Py.cls_space; Py.re_plus true Py.cls_digit;
      Py.re_plus false Py.cls_space]
  ++ Py.re_lits "Off:"
  ++ [Py.re_plus false Py.cls_space; Py.re_plus true Py.cls_digit].

(** [[int(match.group(i)) for i in indices]]; the exception an element
    raises ends the comprehension.  Nothing in the program tells the two
    exceptions apart, and [ValueError] stands for both. *)
Fixpoint int_groups (gs : list text) (indices : list nat) : M (list Z) :=
  match indices with
  | [] => ret []
  | i :: indices' =>
    do g <- or_raise Py.ValueError (Re.group gs i);
    do v <- or_raise Py.ValueError (Py.int T g);
    do vs <- int_groups gs indices';
    ret (v :: vs)
  end.

(** [min(non_zero)] of a non-empty list *)
Definition min_of (v : Z) (vs : list Z) : Z := fold_left Z.min vs v.

Definition get_dpms_timeout_seconds : M Z :=
  if negb (String.eqb SESSION_TYPE "x11") then ret 0%Z
  else
    do found <-
      try_except
        (do stdout <- subprocess_run xset_q;
         match Re.search T re_standby stdout with
         | Some gs =>
           do values <- int_groups gs [1; 2; 3]%nat;
           match filter (fun v => (0 <? v)%Z) values with
           | v :: vs => ret (Some (min_of v vs))
           | [] => ret None
           end
         | None => ret None
         end)
        (fun _ => ret None);
    match found with
    | Some seconds => ret seconds
    | None => ret 0%Z
    end.

End Dpms.

(** ** Setup and session: console, network, log file

    The rest of the program talks to the console, to the network, to the
    file system and to the MQTT client.  Each call is answered by the world
    from the history so far, and is recorded in the history with its
    answer. *)
Module Sys.

Inductive exn :=
| OSError              (* socket.timeout, socket.error, any other OSError *)
| gaierror             (* socket.gaierror, a subclass of OSError *)
| EOFError
| OtherException       (* any other subclass of Exception *)
| KeyboardInterrupt.   (* not a subclass of Exception *)

Definition is_OSError (e : exn) : bool :=
  match e with OSError | gaierror => true | _ => false end.

Definition is_Exception (e : exn) : bool :=
  match e with KeyboardInterrupt => false | _ => true end.

(** an entry of [issues] in [check_dependencies] *)
Inductive issue :=
| dbus_send_not_found                       (* "... install dbus-tools" *)
| not_found (tool package : string).        (* "... sudo apt install ..." *)

(** what [print] writes *)
Inductive line :=
| searching_for_broker
| trying (host : text)
| found
| no
| trying_resolved (ip : text)
| autodetection_failed
| checking_dependencies
| paho_mqtt_ok
| session_type_wayland
| session_type_x11
| tool_ok (tool : string)
| tool_missing (tool : string)
| missing_dependencies
| issue_line (i : issue)
| install_them.

(** what [log] writes in [main] *)
Inductive log_line :=
| shutting_down
| connection_error (e : exn).

Inductive event :=
| Print (l : line)
| Input (prompt : text) (answer : exn + text)
| Which (tool : string) (answer : bool)
| CreateConnection (host : text) (port : Z) (raised : option exn)
| GetHostByName (host : text) (answer : exn + text)
| Exists (answer : exn + bool)
| StatSize (answer : exn + N)
| ReadText (answer : exn + text)
| WriteText (content : text) (raised : option exn)
| Connect (broker port : Py.value) (keepalive : Z) (raised : option exn)
| LoopForever (raised : option exn)
| Disconnect (raised : option exn)
| Sleep (seconds : Z) (raised : option exn)
| Log (l : log_line).

Record world := {
  (** [input(prompt)]: the line typed, without its newline *)
  w_input : list event -> text -> exn + text;
  (** [shutil.which(tool)] found something *)
  w_which : list event -> string -> bool;
  (** [socket.create_connection((host, port), timeout)], then [close()] *)
  w_create_connection : list event -> text -> Z -> option exn;
  (** [socket.gethostbyname(host)] *)
  w_gethostbyname : list event -> text -> exn + text;
  (** [LOG_FILE.exists()], [.stat().st_size], [.read_text()],
      [.write_text(content)] *)
  w_exists : list event -> exn + bool;
  w_stat_size : list event -> exn + N;
  w_read_text : list event -> exn + text;
  w_write_text : list event -> text -> option exn;
  (** [client.connect], [client.loop_forever], [client.disconnect],
      [time.sleep] *)
  w_connect : list event -> Py.value -> Py.value -> option exn;
  w_loop_forever : list event -> option exn;
  w_disconnect : list event -> option exn;
  w_sleep : list event -> Z -> option exn
}.

Definition io (A : Type) : Type :=
  world -> list event -> (exn + A) * list event.

#[export] Instance io_ret : MRet io := fun A a _ h => (inr a, h).

#[export] Instance io_bind : MBind io := fun A B k m w h =>
  match m w h with
  | (inr a, h') => k a w h'
  | (inl e, h') => (inl e, h')
  end.

Definition raise {A} (e : exn) : io A := fun _ h => (inl e, h).

(** [try: body / except ...: handler]; the handler re-raises what its
    [except] clauses do not name. *)
Definition try_except {A} (body : io A) (handler : exn -> io A) : io A :=
  fun w h =>
    match body w h with
    | (inr a, h') => (inr a, h')
    | (inl e, h') => handler e w h'
    end.

(** a call that returns a value or raises *)
Definition call {A} (answer : world -> list event -> exn + A)
  (record : exn + A -> event) : io A :=
  fun w h => (answer w h, h ++ [record (answer w h)]).

(** a call that returns nothing or raises *)
Definition call_ (answer : world -> list event -> option exn)
  (record : option exn -> event) : io unit :=
  fun w h =>
    (match answer w h with Some e => inl e | None => inr tt end,
     h ++ [record (answer w h)]).

Definition print (l : line) : io unit := fun _ h => (inr tt, h ++ [Print l]).

Definition log (l : log_line) : io unit := fun _ h => (inr tt, h ++ [Log l]).

Definition input (prompt : text) : io text :=
  call (fun w h => w_input w h prompt) (Input prompt).

Definition which (tool : string) : io bool :=
  fun w h => (inr (w_which w h tool), h ++ [Which tool (w_which w h tool)]).

Definition create_connection (host : text) (port : Z) : io unit :=
  call_ (fun w h => w_create_connection w h host port)
    (CreateConnection host port).

Definition gethostbyname (host : text) : io text :=
  call (fun w h => w_gethostbyname w h host) (GetHostByName host).

(** *** Configuration helpers *)

Definition test_broker (host : text) (port : Z) : io bool :=
  try_except
    (create_connection host port;; mret true)
    (fun e => if is_OSError e then mret false else raise e).

Definition candidates : list string :=
  ["homeassistant.local"; "homeassistant"; "mqtt.local"; "mqtt"].

(** the [for candidate in candidates] loop of [find_broker]; [Some] is its
    [return candidate] *)
Fixpoint try_candidates (cs : list string) : io (option text) :=
  match cs with
  | [] => mret None
  | candidate :: cs' =>
    print (trying (text_of_string candidate));;
    reachable ← test_broker (text_of_string candidate) 1883;
    if reachable : bool then
      print found;; mret (Some (text_of_string candidate))
    else
      print no;; try_candidates cs'
  end.

Definition find_broker : io (option text) :=
  print searching_for_broker;;
  returned ← try_candidates candidates;
  match returned with
  | Some candidate => mret (Some candidate)
  | None =>
    returned ←
      try_except
        (ip ← gethostbyname (text_of_string "homeassistant.local");
         print (trying_resolved ip);;
         reachable ← test_broker ip 1883;
         if reachable : bool then print found;; mret (Some ip)
         else print no;; mret None)
        (fun e => match e with gaierror => mret None | _ => raise e end);
    match returned with
    | Some ip => mret (Some ip)
    | None => print autodetection_failed;; mret None
    end
  end.

(** [prompt(text, default)] for a [str] default *)
Definition prompt (text_ default : text) : io text :=
  match default with
  | _ :: _ =>
    result ← input (text_of_string "  " ++ text_ ++ text_of_string " ["
                    ++ default ++ text_of_string "]: ");
    let result := Py.strip result in
    mret (match result with _ :: _ => result | [] => default end)
  | [] =>
    result ← input (text_of_string "  " ++ text_ ++ text_of_string ": ");
    mret (Py.strip result)
  end.

Section Dependencies.

Variable SESSION_TYPE : string.

(** the [for tool in [...]] loop of [check_dependencies], threading
    [issues] *)
Fixpoint check_tools (tools : list string) (issues : list issue)
  : io (list issue) :=
  match tools with
  | [] => mret issues
  | tool :: tools' =>
    present ← which tool;
    if present : bool then
      print (tool_ok tool);; check_tools tools' issues
    else
      print (tool_missing tool);;
      check_tools tools'
        (issues
         ++ [not_found tool
               (if String.eqb tool "xset" then "x11-xserver-utils"
                else tool)])
  end.

Fixpoint print_issues (issues : list issue) : io unit :=
  match issues with
  | [] => mret tt
  | i :: issues' => print (issue_line i);; print_issues issues'
  end.

Definition check_dependencies : io bool :=
  print checking_dependencies;;
  print paho_mqtt_ok;;
  issues ←
    (if String.eqb SESSION_TYPE "wayland" then
       print session_type_wayland;;
       present ← which "dbus-send";
       if present : bool then print (tool_ok "dbus-send");; mret []
       else print (tool_missing "dbus-send");; mret [dbus_send_not_found]
     else
       print session_type_x11;;
       check_tools ["xset"; "xdotool"; "xprintidle"] []);
  match issues with
  | _ :: _ =>
    print missing_dependencies;;
    print_issues issues;;
    print install_them
  | [] => mret tt
  end;;
  mret (bool_decide (length issues = 0%nat)).

End Dependencies.

(** *** Log file *)

(** the line boundaries of [str.splitlines] *)
Definition is_linebreak (c : N) : bool :=
  ((10 <=? c) && (c <=? 13) || (28 <=? c) && (c <=? 30)
   || (c =? 0x85) || (c =? 0x2028) || (c =? 0x2029))%N.

(** [s.splitlines()]: [cur] is the line being read; a carriage return
    followed by a line feed is one boundary. *)
Fixpoint splitlines_from (cur : text) (s : text) : list text :=
  match s with
  | [] => match cur with [] => [] | _ :: _ => [cur] end
  | c :: s' =>
    if (c =? 13)%N then
      match s' with
      | 10%N :: s'' => cur :: splitlines_from [] s''
      | _ => cur :: splitlines_from [] s'
      end
    else if is_linebreak c then cur :: splitlines_from [] s'
    else splitlines_from (cur ++ [c]) s'
  end.

Definition splitlines (s : text) : list text := splitlines_from [] s.

(** [sep.join(lines)] *)
Fixpoint join (sep : text) (lines : list text) : text :=
  match lines with
  | [] => []
  | [l] => l
  | l :: lines' => l ++ sep ++ join sep lines'
  end.

(** [lines[-n:]] for [n > 0] *)
Definition last_lines (n : nat) (lines : list text) : list text :=
  drop (length lines - n) lines.

Definition trim_log : io unit :=
  try_except
    (present ← call w_exists Exists;
     if present : bool then
       st_size ← call w_stat_size StatSize;
       if (500000 <? st_size)%N then
         content ← call w_read_text ReadText;
         let lines := splitlines content in
         let trimmed := join [10%N] (last_lines 500 lines) ++ [10%N] in
         call_ (fun w h => w_write_text w h trimmed) (WriteText trimmed)
       else mret tt
     else mret tt)
    (fun e => if is_Exception e then mret tt else raise e).

(** *** The connection loop that ends [main]

    [fuel] bounds the number of times round the [while True]; [None] says
    the loop was still running when it ran out. *)
Fixpoint main_loop (broker port : Py.value) (fuel : nat) : io (option unit) :=
  match fuel with
  | O => mret None
  | S fuel' =>
    broke ←
      try_except
        (call_ (fun w h => w_connect w h broker port) (Connect broker port 60);;
         call_ w_loop_forever LoopForever;;
         mret false)
        (fun e =>
           match e with
           | KeyboardInterrupt =>
             log shutting_down;;
             call_ w_disconnect Disconnect;;
             mret true
           | _ =>
             log (connection_error e);;
             call_ (fun w h => w_sleep w h 10) (Sleep 10);;
             mret false
           end);
    if broke : bool then mret (Some tt) else main_loop broker port fuel'
  end.

End Sys.

(** ** Further vocabulary for the properties *)

(** The executable a command starts: the first element of its argument
    vector. *)
Definition executable (c : command) : string :=
  match c with
  | xprintidle => "xprintidle"
  | xset_q | xset_s_reset | xset_dpms_force_on => "xset"
  | dbus_GetIdletime | dbus_GetActive | dbus_SimulateUserActivity
  | dbus_SetActive_false => "dbus-send"
  end.

Definition is_dbus (c : command) : bool :=
  String.eqb (executable c) "dbus-send".

(** the commands run in a list of events, in order *)
Definition commands_run (evs : list event) : list command :=
  omap (fun e => match e with Run c => Some c | _ => None end) evs.

(** the warnings logged in a list of events, in order *)
Definition warnings (evs : list event) : list message :=
  omap (fun e => match e with LogWarning m => Some m | _ => None end) evs.

Definition failed (o : outcome) : bool :=
  match o with
  | Completed _ => false
  | Failed => true
  end.

(** [int] and [float] values, [bool] included: what an [int] can be ordered
    against. *)
Definition numeric (v : Py.value) : bool :=
  match v with
  | Py.Int _ | Py.Bool _ | Py.Float _ => true
  | _ => false
  end.

(** the list comprehension of [get_dpms_timeout_seconds], without the
    monad *)
Definition parsed_groups (T : Py.tables) (gs : list text)
  (indices : list nat) : option (list Z) :=
  mapM (fun i => Re.group gs i ≫= Py.int T) indices.

(** the connection attempts in a list of events: host, port and what was
    raised *)
Definition attempts (evs : list Sys.event)
  : list (text * Z * option Sys.exn) :=
  omap (fun e =>
          match e with
          | Sys.CreateConnection host port raised => Some (host, port, raised)
          | _ => None
          end) evs.

(** an attempt that ended in an [OSError] *)
Definition refused (a : text * Z * option Sys.exn) : Prop :=
  exists e, a.2 = Some e /\ Sys.is_OSError e = true.

(** the addresses [gethostbyname] returned *)
Definition resolved (evs : list Sys.event) : list text :=
  omap (fun e =>
          match e with
          | Sys.GetHostByName _ (inr ip) => Some ip
          | _ => None
          end) evs.

(** the tools looked for, with the answers *)
Definition looked_for (evs : list Sys.event) : list (string * bool) :=
  omap (fun e =>
          match e with
          | Sys.Which tool answer => Some (tool, answer)
          | _ => None
          end) evs.

(** what was printed *)
Definition printed (evs : list Sys.event) : list Sys.line :=
  omap (fun e => match e with Sys.Print l => Some l | _ => None end) evs.

(** what was written to the log file *)
Definition written (evs : list Sys.event) : list text :=
  omap (fun e =>
          match e with
          | Sys.WriteText content _ => Some content
          | _ => None
          end) evs.

(** the connections [main] asked the client for *)
Definition connects (evs : list Sys.event)
  : list (Py.value * Py.value * Z) :=
  omap (fun e =>
          match e with
          | Sys.Connect broker port keepalive _ =>
            Some (broker, port, keepalive)
          | _ => None
          end) evs.

(** how a run of the connection loop can end, with the events it leaves:
    a normal return after an interrupted [connect] or [loop_forever], or an
    exception out of [time.sleep] or out of [disconnect] *)
Definition loop_end (broker port : Py.value) (r : Sys.exn + option unit)
  (evs : list Sys.event) : Prop :=
  match r with
  | inr (Some _) =>
    exists pre i,
      evs = pre ++ [i; Sys.Log Sys.shutting_down; Sys.Disconnect None]
      /\ (i = Sys.Connect broker port 60 (Some Sys.KeyboardInterrupt)
          \/ i = Sys.LoopForever (Some Sys.KeyboardInterrupt))
  | inr None => True
  | inl e =>
    exists pre,
      (exists e',
         Sys.is_Exception e' = true
         /\ evs = pre ++ [Sys.Log (Sys.connection_error e');
                          Sys.Sleep 10 (Some e)])
      \/ evs = pre ++ [Sys.Log Sys.shutting_down; Sys.Disconnect (Some e)]
  end.

(** the events of a run of the setup and session code *)
Definition io_emitted {A} (m : Sys.io A) (w : Sys.world)
  (h : list Sys.event) : list Sys.event :=
  drop (length h) (snd (m w h)).

Definition io_returned {A} (m : Sys.io A) (w : Sys.world)
  (h : list Sys.event) : Sys.exn + A :=
  fst (m w h).

(** The decimal numeral of a natural number, as a tool prints it. *)
Fixpoint digits_of (d : Decimal.uint) : text :=
  match d with
  | Decimal.Nil => []
  | Decimal.D0 d => 48%N :: digits_of d
  | Decimal.D1 d => 49%N :: digits_of d
  | Decimal.D2 d => 50%N :: digits_of d
  | Decimal.D3 d => 51%N :: digits_of d
  | Decimal.D4 d => 52%N :: digits_of d
  | Decimal.D5 d => 53%N :: digits_of d
  | Decimal.D6 d => 54%N :: digits_of d
  | Decimal.D7 d => 55%N :: digits_of d
  | Decimal.D8 d => 56%N :: digits_of d
  | Decimal.D9 d => 57%N :: digits_of d
  end.

Definition decimal (n : N) : text := digits_of (N.to_uint n).

(** The UTF-8 encoding of a code point (RFC 3629), which a publisher applies
    to the text it sends. *)
Definition utf8_encode (c : N) : list N :=
  (if c <? 0x80 then [c]
   else if c <? 0x800 then [0xC0 + c / 64; 0x80 + c mod 64]
   else if c <? 0x10000 then
     [0xE0 + c / 4096; 0x80 + (c / 64) mod 64; 0x80 + c mod 64]
   else
     [0xF0 + c / 262144; 0x80 + (c / 4096) mod 64;
      0x80 + (c / 64) mod 64; 0x80 + c mod 64])%N.

(** a code point that has an encoding: not a surrogate, at most U+10FFFF *)
Definition scalar (c : N) : bool :=
  ((c <? 0xD800) || (0xE000 <=? c) && (c <=? 0x10FFFF))%N.

Definition encode (t : text) : list N := flat_map utf8_encode t.

(** the [bytes] a publisher sends for the text [t] *)
Definition payload_of_text (t : text) : list byte :=
  omap Byte.of_N (encode t).

(** a byte that occurs in no well-formed UTF-8 sequence *)
Definition impossible_byte (b : N) : Prop :=
  (b = 0xC0 \/ b = 0xC1 \/ 0xF5 <= b)%N.

(** A desk at which every tool is installed, no broker answers, the name
    "homeassistant.local" does not resolve, the log file has grown to
    600000 bytes and holds [log], and the user answers every question with
    [typed]. *)
Definition desk_world (typed log : text) : Sys.world :=
  {| Sys.w_input := fun _ _ => inr typed;
     Sys.w_which := fun _ _ => true;
     Sys.w_create_connection := fun _ _ _ => Some Sys.OSError;
     Sys.w_gethostbyname := fun _ _ => inl Sys.gaierror;
     Sys.w_exists := fun _ => inr true;
     Sys.w_stat_size := fun _ => inr 600000%N;
     Sys.w_read_text := fun _ => inr log;
     Sys.w_write_text := fun _ _ => None;
     Sys.w_connect := fun _ _ _ => Some Sys.OSError;
     Sys.w_loop_forever := fun _ => None;
     Sys.w_disconnect := fun _ => None;
     Sys.w_sleep := fun _ _ => None |}.

(** A configuration file edited by hand, with [null] for the threshold. *)
Definition null_threshold_config : gmap string Py.value :=
  <["active_threshold" := Py.None_]> office_config.

(** [xset q] reporting the three DPMS timeouts *)
Definition dpms_world (standby suspend off : string) : world :=
  constant_world Failed
    (Completed (text_of_string "  Standby: " ++ text_of_string standby
                ++ text_of_string "    Suspend: " ++ text_of_string suspend
                ++ text_of_string "    Off: " ++ text_of_string off)).

(** short names for the Standard Library's decimal numerals *)
Module DPU := DecimalPos.Unsigned.
Module DNU := DecimalN.Unsigned.

(** ** Properties *)

(** Running a computation: unfold the monad and ask the world, one command
    at a time. *)
Ltac run_world :=
  cbv [try_except bind subprocess_run ret raise lift or_raise
       log_info log_warning];
  repeat (cbn beta iota;
          match goal with
          | |- context [match ?w ?h ?c with
                        | Completed _ => _
                        | Failed => _
                        end] =>
            destruct (w h c)
          end);
  cbn beta iota.

(** the same for the setup and session code *)
Ltac run_io :=
  cbv [mbind mret Sys.io_bind Sys.io_ret Sys.try_except Sys.call Sys.call_
       Sys.print Sys.log Sys.raise Sys.input Sys.which
       Sys.create_connection Sys.gethostbyname];
  cbn beta iota.

(** comparisons on code points, decided by linear arithmetic *)
Ltac bool_lia :=
  repeat (progress
            (rewrite ?andb_true_iff, ?andb_false_iff, ?orb_true_iff,
               ?orb_false_iff, ?negb_true_iff, ?negb_false_iff, ?N.ltb_lt,
               ?N.ltb_ge, ?N.leb_le, ?N.leb_gt, ?N.eqb_eq, ?N.eqb_neq in *));
  lia.

(** equality of two results whose histories differ by bracketing *)
Ltac trace_eq := rewrite <- ?app_assoc; reflexivity.

(** *** [str.strip] *)

Abbreviation spaces := (Forall (fun c => Py.isspace c = true)).

Lemma lstrip_split p s :
  exists l, s = l ++ Py.lstrip_by p s /\ Forall (fun c => p c = true) l.
Proof.
  induction s as [|c s (l & E & Hl)]; [by exists []|]. cbn.
  destruct (p c) eqn:Hc.
  - exists (c :: l). split; [by rewrite E at 1|by constructor].
  - by exists [].
Qed.

Lemma rstrip_split p s :
  exists r, s = Py.rstrip_by p s ++ r /\ Forall (fun c => p c = true) r.
Proof.
  destruct (lstrip_split p (rev s)) as (l & E & Hl). exists (rev l). split.
  - unfold Py.rstrip_by.
    rewrite <- rev_app_distr, <- E. by rewrite rev_involutive.
  - by apply Forall_rev.
Qed.

(** What is left after stripping stands in the input between two runs of
    stripped characters. *)
Lemma strip_split p s :
  exists l r,
    s = l ++ Py.strip_by p s ++ r
    /\ Forall (fun c => p c = true) l /\ Forall (fun c => p c = true) r.
Proof.
  destruct (lstrip_split p s) as (l & El & Hl).
  destruct (rstrip_split p (Py.lstrip_by p s)) as (r & Er & Hr).
  exists l, r. fold (Py.strip_by p s) in Er. by rewrite <- Er.
Qed.

Lemma lstrip_spaces p l s :
  Forall (fun c => p c = true) l ->
  Py.lstrip_by p (l ++ s) = Py.lstrip_by p s.
Proof. induction 1 as [|c l Hc _ IH]; [done|]. cbn. by rewrite Hc. Qed.

Lemma lstrip_stop p c s : p c = false -> Py.lstrip_by p (c :: s) = c :: s.
Proof. intros Hc. cbn. by rewrite Hc. Qed.

(** Stripping leaves exactly [t], a text that neither begins nor ends with
    whitespace, when [t] stands in the input between two runs of
    whitespace. *)
Lemma strip_is (a b : N) (mid s : text) :
  Py.isspace a = false -> Py.isspace b = false ->
  Py.strip s = a :: mid ++ [b]
  <-> exists l r, s = l ++ (a :: mid ++ [b]) ++ r /\ spaces l /\ spaces r.
Proof.
  intros Ha Hb. unfold Py.strip. split.
  - intros E. destruct (strip_split Py.isspace s) as (l & r & Es & ? & ?).
    rewrite E in Es. by exists l, r.
  - intros (l & r & -> & Hl & Hr). unfold Py.strip_by.
    rewrite lstrip_spaces by done. cbn [app]. rewrite lstrip_stop by done.
    unfold Py.rstrip_by.
    change (a :: (mid ++ [b]) ++ r) with ((a :: mid ++ [b]) ++ r).
    rewrite rev_app_distr, lstrip_spaces by by apply Forall_rev.
    change (a :: mid ++ [b]) with ((a :: mid) ++ [b]).
    rewrite rev_app_distr. cbn [rev app]. rewrite lstrip_stop by done.
    cbn [rev]. by rewrite rev_app_distr, rev_involutive.
Qed.

Lemma strip_is_wake s :
  Py.strip s = text_of_string "wake"
  <-> exists l r,
        s = l ++ text_of_string "wake" ++ r /\ spaces l /\ spaces r.
Proof.
  change (text_of_string "wake") with (119 :: [97; 107] ++ [101])%N.
  rewrite (strip_is 119 101 [97; 107]%N s) by done.
  split; intros (l & r & E & ?); exists l, r; (split; [|done]);
    rewrite E; by rewrite <- ?app_assoc.
Qed.

Lemma wake_payload_iff payload :
  wake_payload payload
  <-> Py.strip (Py.decode payload) = text_of_string "wake".
Proof. symmetry. apply strip_is_wake. Qed.

(** *** [int] *)

Lemma int_digits_nonneg T acc n b s v m :
  Py.int_digits T acc n b s = Some (v, m) -> (0 <= acc)%Z -> (0 <= v)%Z.
Proof.
  revert acc n b. induction s as [|c s IH]; intros acc n b; cbn.
  - destruct b; [|done]. by intros [= -> ->].
  - destruct (c =? 95)%N.
    + destruct b; [|done]. eauto.
    + destruct (Py.int_digit T c) as [d|]; [|done].
      intros E Hacc. eapply IH; [done|lia].
Qed.

Lemma int_unsigned_nonneg T s v :
  Py.int_unsigned T s = Some v -> (0 <= v)%Z.
Proof.
  unfold Py.int_unsigned.
  destruct (Py.int_digits T 0 0 false s) as [[v' m]|] eqn:E; [|done].
  destruct (Py.int_digits_ok T m); [|done]. intros [= <-].
  by eapply int_digits_nonneg.
Qed.

(** A negative result needs a minus sign in front. *)
Lemma int_negative T s n :
  Py.int T s = Some n -> (n < 0)%Z ->
  exists s', Py.strip_by Py.int_space s = 45%N :: s'.
Proof.
  unfold Py.int. intros E Hn.
  destruct (Py.strip_by Py.int_space s) as [|c s1]; [|].
  { apply int_unsigned_nonneg in E. lia. }
  assert (Py.int_unsigned T (c :: s1) = Some n -> False) as Hno
    by (intros ?%int_unsigned_nonneg; lia).
  destruct (decide (c = 43%N)) as [->|].
  { apply int_unsigned_nonneg in E. lia. }
  destruct (decide (c = 45%N)) as [->|]; [eauto|].
  exfalso. apply Hno. rewrite <- E.
  destruct c as [|p]; [done|].
  do 6 (destruct p as [p|p|]; try done).
Qed.

Lemma int_space_isspace c : Py.int_space c = true -> Py.isspace c = true.
Proof.
  unfold Py.int_space, Py.isspace. destruct (c <? 127)%N; [|done].
  intros [[H1 H2]%andb_prop|H]%orb_prop.
  - rewrite H1, H2. done.
  - apply N.eqb_eq in H as ->. done.
Qed.

(** *** The regular-expression fragment *)

Section Regex.

Variable T : Py.tables.

Lemma match_here_lits (l : text) re g s r :
  Py.match_here T (map Py.re_lit l ++ re) g s = Some r
  <-> exists s', s = l ++ s' /\ Py.match_here T re g s' = Some r.
Proof.
  revert s. induction l as [|c l IH]; intros s; cbn.
  - split; [eauto|]. by intros (s' & -> & ?).
  - destruct s as [|x s]; [split; [done|by intros (? & ? & ?)]|].
    destruct (N.eqb_spec x c) as [->|Hne].
    + rewrite IH. split; intros (s' & E & ?); exists s'; by simplify_eq.
    + split; [done|]. intros (s' & ? & ?). by simplify_eq.
Qed.

(** A greedy run that matched took a non-empty run of the class, and what
    follows the run matched after it. *)
Lemma greedy_sound k rest taken s r :
  Py.greedy k rest taken s = Some r ->
  exists run s',
    s = run ++ s' /\ run <> [] /\ Forall (fun c => k c = true) run
    /\ rest (taken ++ run) s' = Some r.
Proof.
  revert taken. induction s as [|x s IH]; intros taken; cbn; [done|].
  destruct (k x) eqn:Hx; [|done].
  destruct (Py.greedy k rest (taken ++ [x]) s) as [r'|] eqn:E.
  - intros [= ->]. destruct (IH _ E) as (run & s' & -> & _ & Hrun & Hrest).
    exists (x :: run), s'. rewrite <- app_assoc in Hrest.
    repeat split; [done|by constructor|done].
  - intros Hrest. exists [x], s.
    repeat split; [done|by repeat constructor|done].
Qed.

(** The longest run of a class at the start of a text is unique. *)
Lemma longest_run_unique (k : N -> bool) (run1 run2 s1 s2 : text) :
  run1 ++ s1 = run2 ++ s2 ->
  Forall (fun c => k c = true) run1 -> Forall (fun c => k c = true) run2 ->
  (forall c s', s1 = c :: s' -> k c = false) ->
  (forall c s', s2 = c :: s' -> k c = false) ->
  run1 = run2.
Proof.
  intros E H1 H2 Hs1 Hs2. revert run2 E H2.
  induction H1 as [|c run1 Hc _ IH]; intros [|c2 run2] E H2; cbn in E.
  - done.
  - apply Forall_cons in H2 as [Hc2 _].
    rewrite (Hs1 c2 (run2 ++ s2)) in Hc2; done.
  - rewrite (Hs2 c (run1 ++ s1)) in Hc; done.
  - apply Forall_cons in H2 as [_ H2]. injection E as -> E. f_equal.
    by apply IH.
Qed.

(** When nothing has to match after it, a greedy run takes the longest run
    of the class there is, and fails only if there is none. *)
Lemma greedy_last k taken s r :
  Py.greedy k (fun t _ => Some t) taken s = Some r
  <-> exists run s',
        s = run ++ s' /\ run <> [] /\ Forall (fun c => k c = true) run
        /\ (forall c s'', s' = c :: s'' -> k c = false)
        /\ r = taken ++ run.
Proof.
  revert taken r. induction s as [|x s IH]; intros taken r; cbn.
  { split; [done|]. intros (run & s' & E & Hne & _).
    symmetry in E. apply app_eq_nil in E as [-> _]. done. }
  destruct (k x) eqn:Hx.
  - destruct (Py.greedy k _ (taken ++ [x]) s) as [r'|] eqn:E.
    + apply IH in E as (run & s' & -> & Hne & Hrun & Hstop & ->).
      split.
      * intros [= <-]. exists (x :: run), s'. rewrite <- app_assoc.
        repeat split; [done|by constructor|done].
      * intros (run2 & s2 & E2 & Hne2 & Hrun2 & Hstop2 & ->).
        f_equal. rewrite <- app_assoc. f_equal.
        apply (longest_run_unique k (x :: run) run2 s' s2); try done.
        by constructor.
    + split.
      * intros [= <-]. exists [x], s.
        repeat split; [done|by repeat constructor|].
        intros c s'' ->. cbn in E. destruct (k c); [|done].
        by destruct (Py.greedy k _ _ s'').
      * intros (run & s' & E2 & Hne & Hrun & Hstop & ->).
        destruct run as [|y run]; [done|]. simplify_eq/=.
        destruct run as [|c run]; [done|]. exfalso.
        apply Forall_cons in Hrun as [_ [Hc _]%Forall_cons].
        cbn in E. rewrite Hc in E.
        by destruct (Py.greedy k _ _ (run ++ s')).
  - split; [done|]. intros (run & s' & E2 & Hne & Hrun & _).
    destruct run as [|y run]; [done|]. simplify_eq/=.
    apply Forall_cons in Hrun as [Hy _]. congruence.
Qed.

(** [search] finds the leftmost position at which the pattern matches. *)
Lemma search_leftmost re s g :
  Py.search T re s = Some g
  <-> exists before s',
        s = before ++ s' /\ Py.match_here T re [] s' = Some g
        /\ forall before' s'',
             s = before' ++ s'' -> (length before' < length before)%nat ->
             Py.match_here T re [] s'' = None.
Proof.
  split.
  - induction s as [|x s IH]; cbn.
    + destruct (Py.match_here T re [] []) eqn:E; [|done].
      intros [= ->]. exists [], []. repeat split; [done|]. cbn. lia.
    + destruct (Py.match_here T re [] (x :: s)) eqn:E.
      * intros [= ->]. exists [], (x :: s). repeat split; [done|]. cbn. lia.
      * intros (before & s' & -> & Hm & Hleft)%IH.
        exists (x :: before), s'. repeat split; [done|].
        intros [|y before'] s'' E' Hlen; cbn in *; [by subst|].
        injection E' as -> E'. apply (Hleft before'); [done|lia].
  - intros (before & s' & -> & Hm & Hleft).
    induction before as [|x before IH]; cbn.
    + destruct s'; cbn; by rewrite Hm.
    + rewrite (Hleft [] (x :: before ++ s')); [|done|cbn; lia].
      apply IH. intros before' s'' E Hlen.
      apply (Hleft (x :: before')); [cbn; by rewrite E|cbn; lia].
Qed.

(** [re_monitor] at one position *)
Lemma match_monitor_here s g :
  Py.match_here T re_monitor [] s = Some g
  <-> exists after,
        s = text_of_string "Monitor is " ++ g ++ after
        /\ g <> []
        /\ Forall (fun c => Py.in_class T Py.cls_word c = true) g
        /\ (forall c after', after = c :: after' ->
              Py.in_class T Py.cls_word c = false).
Proof.
  unfold re_monitor, Py.re_lits. rewrite match_here_lits. cbn [Py.match_here].
  split.
  - intros (s' & -> & (run & after & -> & ? & ? & ? & ->)%greedy_last).
    by exists after.
  - intros (after & -> & ? & ? & ?). eexists. split; [done|].
    apply greedy_last. by exists g, after.
Qed.

Lemma match_monitor_here_none s :
  Py.match_here T re_monitor [] s = None
  <-> forall c after',
        s = text_of_string "Monitor is " ++ c :: after' ->
        Py.in_class T Py.cls_word c = false.
Proof.
  split.
  - intros Hnone c after' ->. apply not_true_is_false. intros Hc.
    assert (exists g, Py.match_here T re_monitor []
              (text_of_string "Monitor is " ++ c :: after') = Some g)
      as [g Hg]; [|congruence].
    unfold re_monitor, Py.re_lits.
    cbn -[Py.in_class]. rewrite Hc.
    destruct (Py.greedy _ _ _ after'); eauto.
  - intros Hall.
    destruct (Py.match_here T re_monitor [] s) as [g|] eqn:E; [|done].
    apply match_monitor_here in E as (after & -> & Hne & Hg & _).
    destruct g as [|c g]; [done|]. apply Forall_cons in Hg as [Hc _].
    rewrite (Hall c (g ++ after)) in Hc; done.
Qed.

(** The regular expression finds the token of the specification. *)
Lemma search_monitor_token stdout state :
  Py.search T re_monitor stdout = Some state
  <-> monitor_token T stdout state.
Proof.
  rewrite search_leftmost. unfold monitor_token. split.
  - intros (before & s' & -> & (after & -> & ? & ? & ?)%match_monitor_here
            & Hleft).
    exists before, after. repeat split; try done.
    intros before' c after' E Hlen.
    by eapply match_monitor_here_none; [eapply Hleft|].
  - intros (before & after & -> & ? & ? & ? & Hleft).
    eexists before, _. split; [done|]. split.
    + apply match_monitor_here. by exists after.
    + intros before' s'' E Hlen. apply match_monitor_here_none.
      intros c after' ->. by eapply Hleft.
Qed.

(** What [re_uint64] captures is a non-empty run of decimal digits. *)
Lemma search_uint64_digits stdout digits :
  Py.search T re_uint64 stdout = Some digits ->
  digits <> []
  /\ Forall (fun c => Py.in_class T Py.cls_digit c = true) digits.
Proof.
  intros (_ & s' & _ & Hm & _)%search_leftmost.
  unfold re_uint64, Py.re_lits in Hm.
  apply match_here_lits in Hm as (s1 & _ & Hm). cbn [Py.match_here] in Hm.
  apply greedy_sound in Hm as (_ & s2 & _ & _ & _ & Hm).
  apply greedy_sound in Hm as (run & _ & _ & ? & ? & [= <-]). done.
Qed.

End Regex.

Section Properties.

Variable T : Py.tables.
Variable SESSION_TYPE : string.

(** the four commands of the session's back end *)
Local Abbreviation idle_cmd := (idle_query SESSION_TYPE).
Local Abbreviation power_cmd := (power_query SESSION_TYPE).
Local Abbreviation reset_cmd := (reset_op SESSION_TYPE).
Local Abbreviation wake_cmd := (wake_op SESSION_TYPE).

(** *** What each probe returns, as a function of the tool's answer *)

Lemma get_idle_seconds_x11_eq w h :
  get_idle_seconds_x11 T w h =
  (inr match w h xprintidle with
       | Completed out =>
         match Py.int T (Py.strip out) with
         | Some n => (n / 1000)%Z
         | None => 0%Z
         end
       | Failed => 0%Z
       end,
   h ++ [Run xprintidle]).
Proof.
  unfold get_idle_seconds_x11, try_except, bind, subprocess_run.
  destruct (w h xprintidle) as [out|]; [|done].
  unfold or_raise. by destruct (Py.int T (Py.strip out)).
Qed.

Lemma get_idle_seconds_wayland_eq w h :
  get_idle_seconds_wayland T w h =
  (inr match w h dbus_GetIdletime with
       | Completed out =>
         match Py.search T re_uint64 out with
         | Some digits =>
           match Py.int T digits with
           | Some n => (n / 1000)%Z
           | None => 0%Z
           end
         | None => 0%Z
         end
       | Failed => 0%Z
       end,
   h ++ [Run dbus_GetIdletime]).
Proof.
  unfold get_idle_seconds_wayland, try_except, bind, subprocess_run.
  destruct (w h dbus_GetIdletime) as [out|]; [|done].
  destruct (Py.search T re_uint64 out) as [digits|]; [|done].
  unfold or_raise. by destruct (Py.int T digits).
Qed.

Lemma is_screen_off_x11_eq w h :
  is_screen_off_x11 T w h =
  (inr match w h xset_q with
       | Completed out =>
         match Py.search T re_monitor out with
         | Some state => negb (text_eqb state "On")
         | None => false
         end
       | Failed => false
       end,
   h ++ [Run xset_q]).
Proof.
  unfold is_screen_off_x11, try_except, bind, subprocess_run.
  destruct (w h xset_q) as [out|]; [|done].
  by destruct (Py.search T re_monitor out).
Qed.

Lemma is_screen_off_wayland_eq w h :
  is_screen_off_wayland w h =
  (inr match w h dbus_GetActive with
       | Completed out => Py.contains "boolean true" out
       | Failed => false
       end,
   h ++ [Run dbus_GetActive]).
Proof.
  unfold is_screen_off_wayland, try_except, bind, subprocess_run.
  by destruct (w h dbus_GetActive).
Qed.

(** Both queries always return, and run exactly their one command. *)
Lemma get_idle_seconds_total w h :
  exists idle,
    get_idle_seconds T SESSION_TYPE w h = (inr idle, h ++ [Run idle_cmd]).
Proof.
  unfold get_idle_seconds, idle_query. destruct (is_wayland SESSION_TYPE).
  - rewrite get_idle_seconds_wayland_eq. eauto.
  - rewrite get_idle_seconds_x11_eq. eauto.
Qed.

Lemma is_screen_off_total w h :
  exists off,
    is_screen_off T SESSION_TYPE w h = (inr off, h ++ [Run power_cmd]).
Proof.
  unfold is_screen_off, power_query. destruct (is_wayland SESSION_TYPE).
  - rewrite is_screen_off_wayland_eq. eauto.
  - rewrite is_screen_off_x11_eq. eauto.
Qed.

(** *** The mutating operations *)

Lemma reset_idle_timer_runs w h :
  exists warning,
    reset_idle_timer SESSION_TYPE w h
    = (inr tt, h ++ Run reset_cmd :: warning)
    /\ ran is_power_query warning = false
    /\ ran is_idle_query warning = false
    /\ ran is_mutating warning = false.
Proof.
  unfold reset_idle_timer, reset_op.
  destruct (is_wayland SESSION_TYPE);
    unfold reset_idle_timer_wayland, reset_idle_timer_x11;
    run_world; eexists; (split; [trace_eq | done]).
Qed.

Lemma wake_screen_runs w h :
  exists rest,
    wake_screen SESSION_TYPE w h = (inr tt, h ++ Run wake_cmd :: rest)
    /\ ran is_power_query rest = false
    /\ ran is_idle_query rest = false.
Proof.
  unfold wake_screen, wake_op.
  destruct (is_wayland SESSION_TYPE);
    unfold wake_screen_wayland, wake_screen_x11, reset_idle_timer_x11;
    run_world; eexists; (split; [trace_eq | done]).
Qed.

(** *** Reading a run *)

Lemma run_emitted {A} (m : M A) w h r evs :
  m w h = (r, h ++ evs) -> returned m w h = r /\ emitted m w h = evs.
Proof.
  intros E. unfold returned, emitted. rewrite E. split; [done|].
  apply drop_app_length.
Qed.

Lemma idle_query_kind :
  is_idle_query idle_cmd = true /\ is_power_query idle_cmd = false
  /\ is_reset_op idle_cmd = false /\ is_wake_op idle_cmd = false.
Proof. unfold idle_query. by destruct (is_wayland SESSION_TYPE). Qed.

Lemma power_query_kind :
  is_idle_query power_cmd = false /\ is_power_query power_cmd = true
  /\ is_reset_op power_cmd = false /\ is_wake_op power_cmd = false.
Proof. unfold power_query. by destruct (is_wayland SESSION_TYPE). Qed.

Lemma reset_op_kind :
  is_idle_query reset_cmd = false /\ is_power_query reset_cmd = false
  /\ is_reset_op reset_cmd = true /\ is_wake_op reset_cmd = false.
Proof. unfold reset_op. by destruct (is_wayland SESSION_TYPE). Qed.

Lemma wake_op_kind :
  is_idle_query wake_cmd = false /\ is_power_query wake_cmd = false
  /\ is_reset_op wake_cmd = false /\ is_wake_op wake_cmd = true.
Proof. unfold wake_op. by destruct (is_wayland SESSION_TYPE). Qed.

(** *** The three tiers of [handle_wake] *)

Lemma ran_weaken (k1 k2 : command -> bool) evs :
  (forall c, k1 c = true -> k2 c = true) ->
  ran k2 evs = false -> ran k1 evs = false.
Proof.
  intros Hk Hno. apply not_true_is_false.
  intros (e & Hin & He)%existsb_exists.
  apply not_true_iff_false in Hno. apply Hno, existsb_exists.
  exists e. split; [done|]. destruct e; [by apply Hk|done..].
Qed.

(** The events of each tier, for any configuration and the two readings. *)
Lemma handle_wake_tiers config w h idle off :
  returned (get_idle_seconds T SESSION_TYPE) w h = inr idle ->
  returned (is_screen_off T SESSION_TYPE) w (h ++ [Run idle_cmd]) = inr off ->
  exists rest,
    handle_wake T SESSION_TYPE config w h =
    match Py.int_lt idle (dict_get config "active_threshold" (Py.Int 30)) with
    | inl e => (inl e, h ++ [Run idle_cmd])
    | inr true => (inr tt, h ++ [Run idle_cmd])
    | inr false =>
      (inr tt,
       h ++ Run idle_cmd ::
         if off
         then [Run power_cmd; LogInfo (waking_display idle); Run wake_cmd]
              ++ rest
         else [Run power_cmd; LogInfo (resetting_idle_timer idle);
               Run reset_cmd] ++ rest)
    end
    /\ ran is_power_query rest = false
    /\ ran is_idle_query rest = false
    /\ (off = false -> ran is_mutating rest = false).
Proof.
  intros Hidle Hoff. unfold handle_wake.
  unfold returned in *.
  destruct (get_idle_seconds_total w h) as [i Ei].
  destruct (is_screen_off_total w (h ++ [Run idle_cmd])) as [o Eo].
  rewrite Ei in Hidle. rewrite Eo in Hoff. simplify_eq/=.
  unfold bind at 1. rewrite Ei. unfold lift, bind at 1.
  destruct (Py.int_lt idle _) as [e|[|]].
  { by exists []. }
  { exists []. by unfold ret. }
  unfold bind at 1. rewrite Eo. destruct off.
  - unfold bind, log_info.
    destruct (wake_screen_runs w
      (((h ++ [Run idle_cmd]) ++ [Run power_cmd])
       ++ [LogInfo (waking_display idle)])) as (rest & E & ? & ?).
    exists rest. split; [|done]. rewrite E. f_equal.
    by rewrite <- !app_assoc.
  - unfold bind, log_info.
    destruct (reset_idle_timer_runs w
      (((h ++ [Run idle_cmd]) ++ [Run power_cmd])
       ++ [LogInfo (resetting_idle_timer idle)])) as (rest & E & ? & ? & ?).
    exists rest. rewrite E. split; [f_equal; by rewrite <- !app_assoc|done].
Qed.

(** The same for an integer threshold. *)
Lemma handle_wake_run config w h threshold idle off :
  dict_get config "active_threshold" (Py.Int 30) = Py.Int threshold ->
  returned (get_idle_seconds T SESSION_TYPE) w h = inr idle ->
  returned (is_screen_off T SESSION_TYPE) w (h ++ [Run idle_cmd]) = inr off ->
  exists rest,
    handle_wake T SESSION_TYPE config w h =
    (inr tt,
     h ++ Run idle_cmd ::
       if (idle <? threshold)%Z then []
       else if off
            then [Run power_cmd; LogInfo (waking_display idle);
                  Run wake_cmd] ++ rest
            else [Run power_cmd; LogInfo (resetting_idle_timer idle);
                  Run reset_cmd] ++ rest)
    /\ ran is_power_query rest = false
    /\ ran is_idle_query rest = false
    /\ (off = false -> ran is_mutating rest = false).
Proof.
  intros Hcfg Hidle Hoff.
  destruct (handle_wake_tiers config w h idle off Hidle Hoff) as (rest & E & ?).
  exists rest. split; [|done]. rewrite E, Hcfg. cbn.
  by destruct (idle <? threshold)%Z.
Qed.

(** What [handle_wake] does is what the decision engine of the
    specification decides from the two readings. *)
Lemma handle_wake_decision config w h threshold idle off :
  dict_get config "active_threshold" (Py.Int 30) = Py.Int threshold ->
  returned (get_idle_seconds T SESSION_TYPE) w h = inr idle ->
  returned (is_screen_off T SESSION_TYPE) w (h ++ [Run idle_cmd]) = inr off ->
  returned (handle_wake T SESSION_TYPE config) w h = inr tt
  /\ decision_taken (emitted (handle_wake T SESSION_TYPE config) w h)
     = spec_decision idle threshold off.
Proof.
  intros Hcfg Hidle Hoff.
  destruct (handle_wake_run config w h threshold idle off Hcfg Hidle Hoff)
    as (rest & E & _ & _ & Hmut).
  apply run_emitted in E as [-> ->]. split; [done|].
  destruct idle_query_kind as (_ & _ & Hir & Hiw).
  destruct power_query_kind as (_ & _ & Hpr & Hpw).
  destruct reset_op_kind as (_ & _ & Hrr & Hrw).
  destruct wake_op_kind as (_ & _ & _ & Hww).
  unfold spec_decision, decision_taken.
  destruct (idle <? threshold)%Z; [cbn; by rewrite Hir, Hiw|].
  destruct off; cbn; rewrite ?Hir, ?Hiw, ?Hpr, ?Hpw, ?Hrr, ?Hrw, ?Hww; cbn.
  - done.
  - fold (ran is_wake_op rest).
    rewrite (ran_weaken is_wake_op is_mutating) by
      (auto; intros c Hc; unfold is_mutating; by rewrite Hc, orb_true_r).
    done.
Qed.

(** C1. Active-tier dominance: whenever the idle reading is below the
    threshold, [handle_wake] returns after the idle query alone, whatever the
    world would have answered to a power query: the decision is [Ignore], no
    power query is made and no mutating operation is run. *)
Theorem active_tier_dominance config w h threshold idle :
  dict_get config "active_threshold" (Py.Int 30) = Py.Int threshold ->
  returned (get_idle_seconds T SESSION_TYPE) w h = inr idle ->
  (idle < threshold)%Z ->
  handle_wake T SESSION_TYPE config w h = (inr tt, h ++ [Run idle_cmd])
  /\ decision_taken (emitted (handle_wake T SESSION_TYPE config) w h) = Ignore
  /\ ran is_power_query (emitted (handle_wake T SESSION_TYPE config) w h)
     = false
  /\ ran is_mutating (emitted (handle_wake T SESSION_TYPE config) w h)
     = false.
Proof.
  intros Hcfg Hidle Hlt.
  destruct (is_screen_off_total w (h ++ [Run idle_cmd])) as [off Eo].
  destruct (handle_wake_run config w h threshold idle off Hcfg Hidle)
    as (rest & E & _); [unfold returned; by rewrite Eo|].
  apply Z.ltb_lt in Hlt. rewrite Hlt in E.
  split; [done|]. apply run_emitted in E as [_ ->].
  destruct idle_query_kind as (_ & Hip & Hir & Hiw).
  unfold decision_taken, is_mutating. cbn. by rewrite Hip, Hir, Hiw.
Qed.

(** C2. Wake correctness: whenever the idle reading is at or above the
    threshold and the power query reports the screen off, [handle_wake] runs
    the screen-wake operation: the decision is [Wake]. *)
Theorem wake_correctness config w h threshold idle :
  dict_get config "active_threshold" (Py.Int 30) = Py.Int threshold ->
  returned (get_idle_seconds T SESSION_TYPE) w h = inr idle ->
  returned (is_screen_off T SESSION_TYPE) w (h ++ [Run idle_cmd]) = inr true ->
  (threshold <= idle)%Z ->
  returned (handle_wake T SESSION_TYPE config) w h = inr tt
  /\ (exists rest,
        emitted (handle_wake T SESSION_TYPE config) w h
        = [Run idle_cmd; Run power_cmd; LogInfo (waking_display idle);
           Run wake_cmd] ++ rest)
  /\ decision_taken (emitted (handle_wake T SESSION_TYPE config) w h) = Wake.
Proof.
  intros Hcfg Hidle Hoff Hge.
  destruct (handle_wake_decision config w h threshold idle true
              Hcfg Hidle Hoff) as [Hret Hdec].
  destruct (handle_wake_run config w h threshold idle true Hcfg Hidle Hoff)
    as (rest & E & _).
  apply Z.ltb_ge in Hge. unfold spec_decision in Hdec. rewrite Hge in *.
  apply run_emitted in E as [_ E]. eauto.
Qed.

(** C3. Silent-reset correctness: whenever the idle reading is at or above
    the threshold and the power query reports the screen on, [handle_wake]
    runs the idle-timer reset and not the screen wake: the decision is
    [ResetIdleTimer]. *)
Theorem silent_reset_correctness config w h threshold idle :
  dict_get config "active_threshold" (Py.Int 30) = Py.Int threshold ->
  returned (get_idle_seconds T SESSION_TYPE) w h = inr idle ->
  returned (is_screen_off T SESSION_TYPE) w (h ++ [Run idle_cmd])
  = inr false ->
  (threshold <= idle)%Z ->
  returned (handle_wake T SESSION_TYPE config) w h = inr tt
  /\ (exists warning,
        emitted (handle_wake T SESSION_TYPE config) w h
        = [Run idle_cmd; Run power_cmd;
           LogInfo (resetting_idle_timer idle); Run reset_cmd] ++ warning)
  /\ decision_taken (emitted (handle_wake T SESSION_TYPE config) w h)
     = ResetIdleTimer
  /\ ran is_wake_op (emitted (handle_wake T SESSION_TYPE config) w h) = false.
Proof.
  intros Hcfg Hidle Hoff Hge.
  destruct (handle_wake_decision config w h threshold idle false
              Hcfg Hidle Hoff) as [Hret Hdec].
  destruct (handle_wake_run config w h threshold idle false Hcfg Hidle Hoff)
    as (rest & E & _).
  apply Z.ltb_ge in Hge. unfold spec_decision in Hdec. rewrite Hge in *.
  apply run_emitted in E as [_ E].
  repeat split; eauto.
  unfold decision_taken in Hdec.
  by destruct (ran is_wake_op _).
Qed.

(** C4. Boundary: an idle reading equal to the threshold is not "active"
    (the comparison is strict); the handler goes on to the power query and
    the decision is that of tiers 2 and 3, never [Ignore]. *)
Theorem boundary_falls_through config w h threshold off :
  dict_get config "active_threshold" (Py.Int 30) = Py.Int threshold ->
  returned (get_idle_seconds T SESSION_TYPE) w h = inr threshold ->
  returned (is_screen_off T SESSION_TYPE) w (h ++ [Run idle_cmd]) = inr off ->
  ran is_power_query (emitted (handle_wake T SESSION_TYPE config) w h) = true
  /\ decision_taken (emitted (handle_wake T SESSION_TYPE config) w h)
     = (if off then Wake else ResetIdleTimer)
  /\ decision_taken (emitted (handle_wake T SESSION_TYPE config) w h)
     <> Ignore.
Proof.
  intros Hcfg Hidle Hoff.
  destruct (handle_wake_decision config w h threshold threshold off
              Hcfg Hidle Hoff) as [_ Hdec].
  destruct (handle_wake_run config w h threshold threshold off
              Hcfg Hidle Hoff) as (rest & E & _).
  unfold spec_decision in Hdec. rewrite Z.ltb_irrefl in *.
  apply run_emitted in E as [_ E].
  destruct power_query_kind as (_ & Hpp & _).
  split; [|split].
  - rewrite E. destruct off; cbn; by rewrite Hpp, orb_true_r.
  - done.
  - rewrite Hdec. by destruct off.
Qed.

(** C7. The decision does not depend on [screen_timeout]: two
    configurations that agree on every other key make [handle_wake] do the
    same thing in the same world, from the same history. *)
Theorem screen_timeout_irrelevant (config1 config2 : gmap string Py.value) w h :
  (forall key : string,
     key <> "screen_timeout" -> config1 !! key = config2 !! key) ->
  handle_wake T SESSION_TYPE config1 w h
  = handle_wake T SESSION_TYPE config2 w h.
Proof.
  intros Hsame. unfold handle_wake, dict_get.
  by rewrite (Hsame "active_threshold").
Qed.

(** C10. A configuration without the [active_threshold] key is handled as
    one with [active_threshold] 30 (and [screen_timeout] 1200): the handler
    does not fail, and its decision is the one the three-tier policy gives
    for a threshold of 30. *)
Theorem missing_threshold_defaults (config : gmap string Py.value) w h :
  config !! "active_threshold" = None ->
  handle_wake T SESSION_TYPE config w h
  = handle_wake T SESSION_TYPE
      (<["screen_timeout" := Py.Int 1200]>
         (<["active_threshold" := Py.Int 30]> config)) w h
  /\ returned (handle_wake T SESSION_TYPE config) w h = inr tt
  /\ forall idle off,
       returned (get_idle_seconds T SESSION_TYPE) w h = inr idle ->
       returned (is_screen_off T SESSION_TYPE) w
         (h ++ [Run idle_cmd]) = inr off ->
       decision_taken (emitted (handle_wake T SESSION_TYPE config) w h)
       = spec_decision idle 30 off.
Proof.
  intros Hmissing.
  assert (dict_get config "active_threshold" (Py.Int 30) = Py.Int 30) as Hcfg
    by (unfold dict_get; by rewrite Hmissing).
  split; [|split].
  - unfold handle_wake at 1 2. rewrite Hcfg. unfold dict_get at 1.
    rewrite lookup_insert_ne by done. by rewrite lookup_insert_eq.
  - destruct (get_idle_seconds_total w h) as [idle Ei].
    destruct (is_screen_off_total w (h ++ [Run idle_cmd]))
      as [off Eo].
    apply (handle_wake_decision config w h 30 idle off Hcfg);
      unfold returned; by rewrite ?Ei, ?Eo.
  - intros idle off Hidle Hoff.
    by apply (handle_wake_decision config w h 30 idle off Hcfg).
Qed.

(** C6. Fail-safe degradation: when the tool behind a query fails, or prints
    nothing the query can parse, the idle query gives 0 and the power query
    gives [false], in both back ends.  So a failed power query never leads
    to [Wake], and a failed idle query leads to [Ignore] for every positive
    threshold. *)
Theorem fail_safe_degradation (config : gmap string Py.value) w h :
  (w h idle_cmd = Failed ->
   returned (get_idle_seconds T SESSION_TYPE) w h = inr 0%Z)
  /\ (w h power_cmd = Failed ->
      returned (is_screen_off T SESSION_TYPE) w h = inr false)
  /\ (forall out, w h xprintidle = Completed out ->
        Py.int T (Py.strip out) = None ->
        returned (get_idle_seconds_x11 T) w h = inr 0%Z)
  /\ (forall out, w h dbus_GetIdletime = Completed out ->
        match Py.search T re_uint64 out with
        | Some digits => Py.int T digits = None
        | None => True
        end ->
        returned (get_idle_seconds_wayland T) w h = inr 0%Z)
  /\ (forall out, w h xset_q = Completed out ->
        Py.search T re_monitor out = None ->
        returned (is_screen_off_x11 T) w h = inr false)
  /\ (w (h ++ [Run idle_cmd]) power_cmd
      = Failed ->
      decision_taken (emitted (handle_wake T SESSION_TYPE config) w h)
      <> Wake)
  /\ (w h idle_cmd = Failed ->
      forall threshold,
        dict_get config "active_threshold" (Py.Int 30) = Py.Int threshold ->
        (0 < threshold)%Z ->
        decision_taken (emitted (handle_wake T SESSION_TYPE config) w h)
        = Ignore).
Proof.
  assert (forall h, w h idle_cmd = Failed ->
            returned (get_idle_seconds T SESSION_TYPE) w h = inr 0%Z) as Hidle.
  { intros h'. unfold returned, get_idle_seconds, idle_query.
    destruct (is_wayland SESSION_TYPE);
      rewrite ?get_idle_seconds_wayland_eq, ?get_idle_seconds_x11_eq;
      by intros ->. }
  assert (forall h, w h power_cmd = Failed ->
            returned (is_screen_off T SESSION_TYPE) w h = inr false) as Hoff.
  { intros h'. unfold returned, is_screen_off, power_query.
    destruct (is_wayland SESSION_TYPE);
      rewrite ?is_screen_off_wayland_eq, ?is_screen_off_x11_eq;
      by intros ->. }
  repeat split.
  - apply Hidle.
  - apply Hoff.
  - intros out E Hint. unfold returned.
    by rewrite get_idle_seconds_x11_eq, E, Hint.
  - intros out E Hre. unfold returned.
    rewrite get_idle_seconds_wayland_eq, E.
    destruct (Py.search T re_uint64 out); [by rewrite Hre|done].
  - intros out E Hre. unfold returned.
    by rewrite is_screen_off_x11_eq, E, Hre.
  - intros Hfail%Hoff.
    destruct (get_idle_seconds_total w h) as [idle Ei].
    destruct (handle_wake_tiers config w h idle false)
      as (rest & E & _ & _ & Hm); [unfold returned; by rewrite Ei|done|].
    destruct idle_query_kind as (_ & _ & Hir & Hiw).
    destruct power_query_kind as (_ & _ & Hpr & Hpw).
    destruct reset_op_kind as (_ & _ & Hrr & Hrw).
    assert (ran is_wake_op rest = false) as Hw.
    { apply (ran_weaken is_wake_op is_mutating); [|auto].
      intros c Hc. unfold is_mutating. by rewrite Hc, orb_true_r. }
    unfold decision_taken. unfold ran in Hw.
    destruct (Py.int_lt idle _) as [e|[|]];
      apply run_emitted in E as [_ ->]; cbn;
      rewrite ?Hir, ?Hiw, ?Hpr, ?Hpw, ?Hrr, ?Hrw; cbn; rewrite ?Hw; done.
  - intros Hfail%Hidle threshold Hcfg Hpos.
    destruct (is_screen_off_total w (h ++ [Run idle_cmd]))
      as [off Eo].
    destruct (handle_wake_decision config w h threshold 0 off Hcfg Hfail)
      as [_ ->]; [unfold returned; by rewrite Eo|].
    unfold spec_decision. by apply Z.ltb_lt in Hpos as ->.
Qed.

(** C8 (as the code has it). The Wayland idle query returns a non-negative
    number of seconds whatever the service answers.  The X11 idle query does
    so unless the tool's output is a negative integer literal, in which a
    minus sign is the first character that is not whitespace; then the
    result is that integer divided by 1000, rounded down, and is negative. *)
Theorem idle_seconds_sign w h :
  (exists idle,
     returned (get_idle_seconds_wayland T) w h = inr idle /\ (0 <= idle)%Z)
  /\ (exists idle,
        returned (get_idle_seconds_x11 T) w h = inr idle
        /\ ((idle < 0)%Z
            <-> exists out n,
                  w h xprintidle = Completed out
                  /\ Py.int T (Py.strip out) = Some n
                  /\ (n < 0)%Z /\ idle = (n / 1000)%Z)
        /\ ((idle < 0)%Z ->
            exists out blanks rest,
              w h xprintidle = Completed out
              /\ out = blanks ++ 45%N :: rest /\ spaces blanks)).
Proof.
  split.
  - unfold returned. rewrite get_idle_seconds_wayland_eq. eexists.
    split; [done|]. cbn [fst].
    destruct (w h dbus_GetIdletime) as [out|]; [|cbn; lia].
    destruct (Py.search T re_uint64 out) as [digits|] eqn:Hre; [|cbn; lia].
    destruct (Py.int T digits) as [n|] eqn:Hint; [|cbn; lia].
    apply Z.div_pos; [|lia].
    destruct (Z.lt_ge_cases n 0) as [Hneg|]; [|done].
    destruct (int_negative T digits n Hint Hneg) as [rest Hminus].
    destruct (strip_split Py.int_space digits) as (l & r & E & _).
    rewrite Hminus in E.
    apply search_uint64_digits in Hre as [_ Hdigits]. rewrite E in Hdigits.
    apply Forall_app in Hdigits as [_ [Hd _]%Forall_cons]. done.
  - unfold returned. rewrite get_idle_seconds_x11_eq. eexists.
    split; [done|]. cbn [fst].
    destruct (w h xprintidle) as [out|]; cycle 1.
    { split; [split; [lia|by intros (? & ? & ? & _)]|lia]. }
    destruct (Py.int T (Py.strip out)) as [n|] eqn:Hint; cycle 1.
    { split; [split; [lia|]|lia]. intros (? & ? & ? & ? & _). congruence. }
    assert ((n / 1000 < 0)%Z <-> (n < 0)%Z) as Hdiv
      by (pose proof (Z.div_lt_upper_bound n 1000 0);
          pose proof (Z.div_pos n 1000); lia).
    split; [split|].
    + intros Hneg%Hdiv. by exists out, n.
    + intros (out' & n' & ? & ? & ? & ?). simplify_eq. by apply Hdiv.
    + intros Hneg%Hdiv.
      destruct (int_negative T _ n Hint Hneg) as [rest Hminus].
      destruct (strip_split Py.int_space (Py.strip out))
        as (l1 & r1 & E1 & Hl1 & _).
      destruct (strip_split Py.isspace out) as (l0 & r0 & E0 & Hl0 & _).
      fold (Py.strip out) in E0. rewrite Hminus in E1.
      exists out, (l0 ++ l1), (rest ++ r1 ++ r0). repeat split.
      * rewrite E0 at 1. rewrite E1. by rewrite <- !app_assoc.
      * apply Forall_app. split; [done|].
        eapply Forall_impl; [done|]. apply int_space_isspace.
Qed.

(** C9. The X11 power query reports the screen off exactly when the output
    of [xset q] holds a "Monitor is <state>" token whose state is not the
    literal "On"; with no such token, or when the tool fails, it reports
    [false]. *)
Theorem screen_off_x11_monitor_token w h :
  (exists off, is_screen_off_x11 T w h = (inr off, h ++ [Run xset_q]))
  /\ (returned (is_screen_off_x11 T) w h = inr true
      <-> exists stdout state,
            w h xset_q = Completed stdout
            /\ monitor_token T stdout state
            /\ state <> text_of_string "On")
  /\ ((forall stdout state,
         w h xset_q = Completed stdout -> ~ monitor_token T stdout state) ->
      returned (is_screen_off_x11 T) w h = inr false).
Proof.
  unfold returned. rewrite is_screen_off_x11_eq. cbn [fst].
  split; [eauto|].
  destruct (w h xset_q) as [out|]; cycle 1.
  { split; [|done]. split; [done|by intros (? & ? & ? & _)]. }
  destruct (Py.search T re_monitor out) as [state|] eqn:Hre.
  - apply search_monitor_token in Hre as Htok. unfold text_eqb.
    split; [split|].
    + intros [= Hneq]. exists out, state. repeat split; [done|].
      intros ->. by rewrite bool_decide_eq_true_2 in Hneq.
    + intros (out' & state' & [= <-] & Htok'%search_monitor_token & Hneq).
      rewrite Hre in Htok'. simplify_eq. by rewrite bool_decide_eq_false_2.
    + intros Hnone. by destruct (Hnone out state).
  - split; [|done]. split; [done|].
    intros (out' & state' & [= <-] & Htok'%search_monitor_token & _).
    congruence.
Qed.

(** C5 (as the code has it). A message triggers [handle_wake], which begins
    with the idle query, exactly when its payload, decoded as UTF-8 and
    trimmed of surrounding whitespace, is the literal "wake"; that includes
    "wake" followed by a blank.  Any other payload, such as "Wake",
    "wake now" or the empty one, does nothing: no event, no probe call. *)
Theorem on_message_wake_payload (_config : gmap string Py.value) payload w h :
  (wake_payload payload
   <-> Py.strip (Py.decode payload) = text_of_string "wake")
  /\ (wake_payload payload ->
      on_message T SESSION_TYPE _config payload w h
      = handle_wake T SESSION_TYPE _config w h
      /\ exists rest,
           emitted (on_message T SESSION_TYPE _config payload) w h
           = Run idle_cmd :: rest)
  /\ (~ wake_payload payload ->
      on_message T SESSION_TYPE _config payload w h = (inr tt, h)
      /\ emitted (on_message T SESSION_TYPE _config payload) w h = [])
  /\ (wake_payload (bytes_of_string "wake")
      /\ wake_payload (bytes_of_string "wake ")
      /\ ~ wake_payload (bytes_of_string "Wake")
      /\ ~ wake_payload (bytes_of_string "wake now")
      /\ ~ wake_payload (bytes_of_string "")).
Proof.
  pose proof wake_payload_iff as Hiff.
  split; [done|]. unfold on_message, text_eqb. split; [|split].
  - intros Hwake%Hiff. rewrite bool_decide_eq_true_2 by done. cbv iota.
    split; [done|].
    destruct (get_idle_seconds_total w h) as [idle Ei].
    destruct (is_screen_off_total w (h ++ [Run idle_cmd]))
      as [off Eo].
    destruct (handle_wake_tiers _config w h idle off) as (rest & E & _);
      [unfold returned; by rewrite ?Ei, ?Eo..|].
    destruct (Py.int_lt idle _) as [e|[|]];
      apply run_emitted in E as [_ ->]; eauto.
  - intros Hnot. rewrite bool_decide_eq_false_2 by (by rewrite <- Hiff).
    cbv iota. split; [done|]. unfold emitted, ret. cbn. apply drop_all.
  - rewrite !Hiff. by vm_compute.
Qed.

End Properties.

(** ** Concrete runs

    The scenarios of the specification on the X11 back end, with the
    configuration above (threshold 30 seconds). *)

Lemma active_tier_dominance_witness :
  handle_wake ascii_tables "x11" office_config (x11_world "10000" "Off") []
  = (inr tt, [Run xprintidle])
  /\ decision_taken
       (emitted (handle_wake ascii_tables "x11" office_config)
          (x11_world "10000" "Off") []) = Ignore
  /\ ran is_power_query
       (emitted (handle_wake ascii_tables "x11" office_config)
          (x11_world "10000" "Off") []) = false
  /\ ran is_mutating
       (emitted (handle_wake ascii_tables "x11" office_config)
          (x11_world "10000" "Off") []) = false.
Proof.
  apply (active_tier_dominance ascii_tables "x11" office_config
           (x11_world "10000" "Off") [] 30 10).
  - reflexivity.
  - vm_compute. reflexivity.
  - reflexivity.
Defined.

Lemma wake_correctness_witness :
  returned (handle_wake ascii_tables "x11" office_config)
    (x11_world "45000" "Off") [] = inr tt
  /\ (exists rest,
        emitted (handle_wake ascii_tables "x11" office_config)
          (x11_world "45000" "Off") []
        = [Run xprintidle; Run xset_q; LogInfo (waking_display 45);
           Run xset_dpms_force_on] ++ rest)
  /\ decision_taken
       (emitted (handle_wake ascii_tables "x11" office_config)
          (x11_world "45000" "Off") []) = Wake.
Proof.
  apply (wake_correctness ascii_tables "x11" office_config
           (x11_world "45000" "Off") [] 30 45).
  - reflexivity.
  - vm_compute. reflexivity.
  - vm_compute. reflexivity.
  - discriminate.
Defined.

Lemma silent_reset_correctness_witness :
  returned (handle_wake ascii_tables "x11" office_config)
    (x11_world "45000" "On") [] = inr tt
  /\ (exists warning,
        emitted (handle_wake ascii_tables "x11" office_config)
          (x11_world "45000" "On") []
        = [Run xprintidle; Run xset_q; LogInfo (resetting_idle_timer 45);
           Run xset_s_reset] ++ warning)
  /\ decision_taken
       (emitted (handle_wake ascii_tables "x11" office_config)
          (x11_world "45000" "On") []) = ResetIdleTimer
  /\ ran is_wake_op
       (emitted (handle_wake ascii_tables "x11" office_config)
          (x11_world "45000" "On") []) = false.
Proof.
  apply (silent_reset_correctness ascii_tables "x11" office_config
           (x11_world "45000" "On") [] 30 45).
  - reflexivity.
  - vm_compute. reflexivity.
  - vm_compute. reflexivity.
  - discriminate.
Defined.

(** [active_threshold] 30, idle 30 seconds, screen on: [ResetIdleTimer]. *)
Lemma boundary_falls_through_witness :
  ran is_power_query
    (emitted (handle_wake ascii_tables "x11" office_config)
       (x11_world "30000" "On") []) = true
  /\ decision_taken
       (emitted (handle_wake ascii_tables "x11" office_config)
          (x11_world "30000" "On") []) = ResetIdleTimer
  /\ decision_taken
       (emitted (handle_wake ascii_tables "x11" office_config)
          (x11_world "30000" "On") []) <> Ignore.
Proof.
  apply (boundary_falls_through ascii_tables "x11" office_config
           (x11_world "30000" "On") [] 30 false).
  - reflexivity.
  - vm_compute. reflexivity.
  - vm_compute. reflexivity.
Defined.

(** The payload "wake" followed by a blank is acted upon: the probes are
    queried and the display is woken. *)
Lemma on_message_trailing_blank_counterexample :
  emitted (on_message ascii_tables "x11" office_config
             (bytes_of_string "wake ")) (x11_world "45000" "Off") []
  = [Run xprintidle; Run xset_q; LogInfo (waking_display 45);
     Run xset_dpms_force_on; Run xset_s_reset]
  /\ emitted (on_message ascii_tables "x11" office_config
                (bytes_of_string "wake ")) (x11_world "45000" "Off") []
     <> [].
Proof. split; [by vm_compute|]. by vm_compute. Qed.

Lemma on_message_wake_payload_witness :
  on_message ascii_tables "x11" office_config (bytes_of_string "wake ")
    (x11_world "45000" "Off") []
  = handle_wake ascii_tables "x11" office_config (x11_world "45000" "Off") []
  /\ on_message ascii_tables "x11" office_config (bytes_of_string "WAKE")
       (x11_world "45000" "Off") []
     = (inr tt, []).
Proof.
  split.
  - destruct (on_message_wake_payload ascii_tables "x11" office_config
                (bytes_of_string "wake ") (x11_world "45000" "Off") [])
      as (Hiff & Hyes & _).
    apply Hyes, Hiff. vm_compute. reflexivity.
  - destruct (on_message_wake_payload ascii_tables "x11" office_config
                (bytes_of_string "WAKE") (x11_world "45000" "Off") [])
      as (Hiff & _ & Hno & _).
    apply Hno. intros Hwake%Hiff. vm_compute in Hwake. discriminate.
Defined.

(** The idle query times out: idle 0, [Ignore]; the power query fails: no
    [Wake]. *)
Lemma fail_safe_degradation_witness :
  decision_taken
    (emitted (handle_wake ascii_tables "x11" office_config)
       (constant_world Failed (Completed (text_of_string "Monitor is Off")))
       []) = Ignore
  /\ decision_taken
       (emitted (handle_wake ascii_tables "wayland" office_config)
          (constant_world (Completed (text_of_string "uint64 45000")) Failed)
          []) <> Wake.
Proof.
  split.
  - destruct (fail_safe_degradation ascii_tables "x11" office_config
                (constant_world Failed
                   (Completed (text_of_string "Monitor is Off"))) [])
      as (_ & _ & _ & _ & _ & _ & Hidle).
    apply (Hidle eq_refl 30%Z); reflexivity.
  - destruct (fail_safe_degradation ascii_tables "wayland" office_config
                (constant_world (Completed (text_of_string "uint64 45000"))
                   Failed) [])
      as (_ & _ & _ & _ & _ & Hpower & _).
    apply Hpower. reflexivity.
Defined.

Lemma screen_timeout_irrelevant_witness :
  handle_wake ascii_tables "x11" office_config (x11_world "45000" "Off") []
  = handle_wake ascii_tables "x11"
      (<["screen_timeout" := Py.Int 5]> office_config)
      (x11_world "45000" "Off") [].
Proof.
  apply screen_timeout_irrelevant. intros key Hne. symmetry.
  apply lookup_insert_ne. congruence.
Defined.

(** [xprintidle] printing "-1": the X11 idle query returns -1. *)
Lemma idle_seconds_x11_negative_counterexample :
  exists idle,
    returned (get_idle_seconds ascii_tables "x11") (x11_world "-1" "On") []
    = inr idle
    /\ (idle < 0)%Z.
Proof. exists (-1)%Z. split; by vm_compute. Qed.

Lemma idle_seconds_sign_witness :
  exists out blanks rest,
    x11_world "-1500" "On" [] xprintidle = Completed out
    /\ out = blanks ++ 45%N :: rest
    /\ spaces blanks.
Proof.
  destruct (idle_seconds_sign ascii_tables (x11_world "-1500" "On") [])
    as (_ & idle & Hret & _ & Hminus).
  apply Hminus. vm_compute in Hret. injection Hret as <-. reflexivity.
Defined.

Lemma screen_off_x11_monitor_token_witness :
  exists stdout state,
    x11_world "45000" "Standby" [] xset_q = Completed stdout
    /\ monitor_token ascii_tables stdout state
    /\ state <> text_of_string "On".
Proof.
  destruct (screen_off_x11_monitor_token ascii_tables
              (x11_world "45000" "Standby") []) as (_ & Hiff & _).
  apply Hiff. vm_compute. reflexivity.
Defined.

Lemma missing_threshold_defaults_witness :
  handle_wake ascii_tables "x11" (delete "active_threshold" office_config)
    (x11_world "30000" "On") []
  = handle_wake ascii_tables "x11"
      (<["screen_timeout" := Py.Int 1200]>
         (<["active_threshold" := Py.Int 30]>
            (delete "active_threshold" office_config)))
      (x11_world "30000" "On") []
  /\ returned
       (handle_wake ascii_tables "x11"
          (delete "active_threshold" office_config))
       (x11_world "30000" "On") [] = inr tt
  /\ forall idle off,
       returned (get_idle_seconds ascii_tables "x11")
         (x11_world "30000" "On") [] = inr idle ->
       returned (is_screen_off ascii_tables "x11") (x11_world "30000" "On")
         ([] ++ [Run (idle_query "x11")]) = inr off ->
       decision_taken
         (emitted
            (handle_wake ascii_tables "x11"
               (delete "active_threshold" office_config))
            (x11_world "30000" "On") [])
       = spec_decision idle 30 off.
Proof.
  apply (missing_threshold_defaults ascii_tables "x11"
           (delete "active_threshold" office_config)
           (x11_world "30000" "On") []).
  reflexivity.
Defined.

(** ** More about the wake path *)

Section WakePath.

Variable T : Py.tables.
Variable SESSION_TYPE : string.

Local Abbreviation idle_cmd := (idle_query SESSION_TYPE).
Local Abbreviation power_cmd := (power_query SESSION_TYPE).
Local Abbreviation reset_cmd := (reset_op SESSION_TYPE).
Local Abbreviation wake_cmd := (wake_op SESSION_TYPE).

(** X1. The mutating operations are best effort: none of them raises, each runs
    its command whatever happened before, and logs one warning for each
    command that failed.  On X11 the idle reset follows the forced wake even
    when the wake itself failed. *)
Theorem mutating_operations_best_effort w h :
  let warn c m h := if failed (w h c) then [LogWarning m] else [] in
  reset_idle_timer_x11 w h
  = (inr tt, h ++ Run xset_s_reset :: warn xset_s_reset xset_s_reset_failed h)
  /\ reset_idle_timer_wayland w h
     = (inr tt,
        h ++ Run dbus_SimulateUserActivity
          :: warn dbus_SimulateUserActivity dbus_idle_reset_failed h)
  /\ wake_screen_wayland w h
     = (inr tt,
        h ++ Run dbus_SetActive_false
          :: warn dbus_SetActive_false dbus_screen_wake_failed h)
  /\ wake_screen_x11 w h
     = (inr tt,
        h ++ Run xset_dpms_force_on
          :: warn xset_dpms_force_on xset_dpms_force_on_failed h
          ++ Run xset_s_reset
          :: warn xset_s_reset xset_s_reset_failed
               (h ++ Run xset_dpms_force_on
                  :: warn xset_dpms_force_on xset_dpms_force_on_failed h)).
Proof.
  cbv zeta. repeat split.
  - unfold reset_idle_timer_x11, try_except, bind, subprocess_run.
    destruct (w h xset_s_reset); [done|].
    unfold log_warning. cbn. by rewrite <- app_assoc.
  - unfold reset_idle_timer_wayland, try_except, bind, subprocess_run.
    destruct (w h dbus_SimulateUserActivity); [done|].
    unfold log_warning. cbn. by rewrite <- app_assoc.
  - unfold wake_screen_wayland, try_except, bind, subprocess_run.
    destruct (w h dbus_SetActive_false); [done|].
    unfold log_warning. cbn. by rewrite <- app_assoc.
  - unfold wake_screen_x11, reset_idle_timer_x11, try_except, bind,
      subprocess_run, log_warning, ret.
    destruct (w h xset_dpms_force_on); cbn [failed app].
    + destruct (w (h ++ [Run xset_dpms_force_on]) xset_s_reset);
        cbn [failed]; by rewrite <- ?app_assoc.
    + replace (h ++ [Run xset_dpms_force_on;
                     LogWarning xset_dpms_force_on_failed])
        with ((h ++ [Run xset_dpms_force_on])
              ++ [LogWarning xset_dpms_force_on_failed])
        by by rewrite <- app_assoc.
      destruct (w _ xset_s_reset); cbn [failed]; by rewrite <- ?app_assoc.
Qed.

Lemma reset_idle_timer_commands w h :
  exists evs,
    reset_idle_timer SESSION_TYPE w h = (inr tt, h ++ evs)
    /\ commands_run evs = [reset_cmd].
Proof.
  unfold reset_idle_timer, reset_op.
  destruct (is_wayland SESSION_TYPE);
    unfold reset_idle_timer_wayland, reset_idle_timer_x11;
    run_world; eexists; (split; [trace_eq | done]).
Qed.

Lemma wake_screen_commands w h :
  exists evs,
    wake_screen SESSION_TYPE w h = (inr tt, h ++ evs)
    /\ commands_run evs
       = wake_cmd
           :: if is_wayland SESSION_TYPE then [] else [xset_s_reset].
Proof.
  unfold wake_screen, wake_op.
  destruct (is_wayland SESSION_TYPE);
    unfold wake_screen_wayland, wake_screen_x11, reset_idle_timer_x11;
    run_world; eexists; (split; [trace_eq | done]).
Qed.

Lemma commands_run_app evs1 evs2 :
  commands_run (evs1 ++ evs2) = commands_run evs1 ++ commands_run evs2.
Proof. apply omap_app. Qed.

Lemma int_lt_numeric a v :
  match Py.int_lt a v with
  | inl e => e = Py.TypeError /\ numeric v = false
  | inr _ => numeric v = true
  end.
Proof. by destruct v. Qed.

(** What [handle_wake] runs, whatever the configuration and the world. *)
Lemma handle_wake_shape config w h :
  exists r evs,
    handle_wake T SESSION_TYPE config w h = (r, h ++ evs)
    /\ ((commands_run evs = [idle_cmd]
         /\ (forall e, r = inl e ->
               e = Py.TypeError
               /\ numeric (dict_get config "active_threshold" (Py.Int 30))
                  = false)
         /\ (numeric (dict_get config "active_threshold" (Py.Int 30)) = false
             -> r = inl Py.TypeError))
        \/ (r = inr tt
            /\ numeric (dict_get config "active_threshold" (Py.Int 30)) = true
            /\ (commands_run evs = [idle_cmd; power_cmd; reset_cmd]
                \/ commands_run evs
                   = [idle_cmd; power_cmd; wake_cmd]
                     ++ if is_wayland SESSION_TYPE then []
                        else [xset_s_reset]))).
Proof.
  destruct (get_idle_seconds_total T SESSION_TYPE w h) as [idle Ei].
  destruct (is_screen_off_total T SESSION_TYPE w (h ++ [Run idle_cmd]))
    as [off Eo].
  unfold handle_wake. unfold bind at 1. rewrite Ei. unfold lift, bind at 1.
  pose proof (int_lt_numeric idle
                (dict_get config "active_threshold" (Py.Int 30))) as Hn.
  destruct (Py.int_lt idle _) as [e|[|]].
  { destruct Hn as [-> Hn]. eexists _, [Run idle_cmd]. split; [done|left].
    split; [done|]. split; [by intros ? [= <-]|done]. }
  { eexists _, [Run idle_cmd]. split; [done|left].
    split; [done|]. split; [by intros ? [=]|]. intros Hf. congruence. }
  unfold bind at 1. rewrite Eo. destruct off; unfold bind, log_info.
  - destruct (wake_screen_commands w
      (((h ++ [Run idle_cmd]) ++ [Run power_cmd])
       ++ [LogInfo (waking_display idle)])) as (evs & -> & Hc).
    exists (inr tt),
      ([Run idle_cmd; Run power_cmd; LogInfo (waking_display idle)] ++ evs).
    split; [by rewrite <- !app_assoc|right].
    repeat split; [done|]. right. by rewrite commands_run_app, Hc.
  - destruct (reset_idle_timer_commands w
      (((h ++ [Run idle_cmd]) ++ [Run power_cmd])
       ++ [LogInfo (resetting_idle_timer idle)])) as (evs & -> & Hc).
    exists (inr tt),
      ([Run idle_cmd; Run power_cmd; LogInfo (resetting_idle_timer idle)]
       ++ evs).
    split; [by rewrite <- !app_assoc|right].
    repeat split; [done|]. left. by rewrite commands_run_app, Hc.
Qed.

(** X2. The only command sequences [handle_wake] ever runs: the idle query
    alone; idle query, power query, idle reset; idle query, power query,
    wake (followed on X11 by the idle reset).  So the idle query always
    comes first, each query is made at most once, and nothing is changed
    before both queries were made. *)
Theorem handle_wake_command_sequences config w h :
  let cmds := commands_run (emitted (handle_wake T SESSION_TYPE config) w h) in
  cmds = [idle_cmd]
  \/ cmds = [idle_cmd; power_cmd; reset_cmd]
  \/ cmds = [idle_cmd; power_cmd; wake_cmd]
            ++ if is_wayland SESSION_TYPE then [] else [xset_s_reset].
Proof.
  cbv zeta.
  destruct (handle_wake_shape config w h) as (r & evs & E & Hshape).
  apply run_emitted in E as [_ ->].
  destruct Hshape as [(-> & _)|(_ & _ & [->| ->])]; auto.
Qed.

(** X3. A threshold that is present in the configuration but is not a number (a
    JSON null, string, array or object) makes [handle_wake] raise
    [TypeError] right after the idle query, before anything else is run, and
    [on_message] lets the exception through.  With a number (an integer, a
    float, a boolean) the handler never raises. *)
Theorem threshold_type_error config w h :
  (numeric (dict_get config "active_threshold" (Py.Int 30)) = false ->
   handle_wake T SESSION_TYPE config w h
   = (inl Py.TypeError, h ++ [Run idle_cmd])
   /\ forall payload,
        wake_payload payload ->
        returned (on_message T SESSION_TYPE config payload) w h
        = inl Py.TypeError)
  /\ (numeric (dict_get config "active_threshold" (Py.Int 30)) = true ->
      returned (handle_wake T SESSION_TYPE config) w h = inr tt).
Proof.
  destruct (get_idle_seconds_total T SESSION_TYPE w h) as [idle Ei].
  destruct (is_screen_off_total T SESSION_TYPE w (h ++ [Run idle_cmd]))
    as [off Eo].
  destruct (handle_wake_tiers T SESSION_TYPE config w h idle off)
    as (rest & E & _); [unfold returned; by rewrite ?Ei, ?Eo..|].
  pose proof (int_lt_numeric idle
                (dict_get config "active_threshold" (Py.Int 30))) as Hn.
  destruct (Py.int_lt idle _) as [e|b].
  - destruct Hn as [-> Hn]. split; [|congruence]. intros _. split; [done|].
    intros payload Hwake%wake_payload_iff. unfold returned, on_message.
    unfold text_eqb. rewrite bool_decide_eq_true_2 by done. by rewrite E.
  - split; [congruence|]. intros _. unfold returned. rewrite E.
    by destruct b.
Qed.

Lemma on_message_backend _config payload w h :
  Forall (fun c => is_dbus c = is_wayland SESSION_TYPE)
    (commands_run
       (emitted (on_message T SESSION_TYPE _config payload) w h)).
Proof.
  assert (Forall (fun c => is_dbus c = is_wayland SESSION_TYPE)
            (commands_run
               (emitted (handle_wake T SESSION_TYPE _config) w h))) as Hh.
  { destruct (handle_wake_shape _config w h) as (r & evs & E & Hshape).
    apply run_emitted in E as [_ ->].
    destruct Hshape as [(-> & _)|(_ & _ & [->| ->])];
      unfold idle_query, power_query, reset_op, wake_op;
      destruct (is_wayland SESSION_TYPE); by repeat constructor. }
  unfold on_message in *. destruct (text_eqb _ _); [done|].
  unfold emitted, ret. cbn. rewrite drop_all. constructor.
Qed.

(** X4. A session runs the commands of its own back end only: D-Bus calls when
    [SESSION_TYPE] is exactly "wayland", the X11 tools for any other value;
    no message makes the program mix the two. *)
Theorem backend_isolation _config payload w h :
  Forall (fun c => is_dbus c = is_wayland SESSION_TYPE)
    (commands_run
       (emitted (on_message T SESSION_TYPE _config payload) w h)).
Proof. apply on_message_backend. Qed.

End WakePath.

(** ** Reading the tools' output *)

Section Readings.

Variable T : Py.tables.

(** Stripping [p] from a text that has a [p]-free core between two runs of
    [p] leaves the core. *)
Lemma strip_by_core p (l t r : text) :
  Forall (fun c => p c = true) l -> Forall (fun c => p c = true) r ->
  Forall (fun c => p c = false) t ->
  Py.strip_by p (l ++ t ++ r) = t.
Proof.
  intros Hl Hr Ht. unfold Py.strip_by. rewrite lstrip_spaces by done.
  assert (forall u, Forall (fun c => p c = true) u -> Py.lstrip_by p u = [])
    as Hall.
  { induction 1 as [|c u Hc _ IH]; [done|]. cbn. by rewrite Hc. }
  destruct t as [|a t]; cbn [app].
  { rewrite (Hall r) by done. done. }
  apply Forall_cons in Ht as [Ha Ht]. rewrite lstrip_stop by done.
  unfold Py.rstrip_by.
  change (a :: t ++ r) with ((a :: t) ++ r).
  rewrite rev_app_distr, lstrip_spaces by by apply Forall_rev.
  assert (Forall (fun c => p c = false) (rev (a :: t))) as Hrev
    by (apply Forall_rev; by constructor).
  destruct (rev (a :: t)) as [|b u] eqn:E.
  { apply (f_equal (@rev N)) in E. by rewrite rev_involutive in E. }
  apply Forall_cons in Hrev as [Hb _]. rewrite lstrip_stop by done.
  by rewrite <- E, rev_involutive.
Qed.

Lemma digits_of_digits d :
  Forall (fun c => (48 <= c <= 57)%N) (digits_of d).
Proof. induction d; cbn; constructor; (lia || done). Qed.

Lemma digits_of_length d : DPU.usize d = N.of_nat (length (digits_of d)).
Proof. induction d; cbn [DPU.usize digits_of length]; lia. Qed.

Lemma int_digits_digit acc k b (c : N) s :
  (48 <= c <= 57)%N ->
  Py.int_digits T acc k b (c :: s)
  = Py.int_digits T (10 * acc + Z.of_N (c - 48)) (S k) true s.
Proof.
  intros Hc. cbn [Py.int_digits].
  replace (c =? 95)%N with false by (symmetry; apply N.eqb_neq; lia).
  unfold Py.int_digit, Py.ascii_decimal.
  replace (c <? 127)%N with true by (symmetry; apply N.ltb_lt; lia).
  replace ((48 <=? c) && (c <=? 57))%N with true; [done|].
  symmetry. apply andb_true_intro. split; apply N.leb_le; lia.
Qed.

Lemma of_lu_rev_cons (f : Decimal.uint -> Decimal.uint) d :
  f = Decimal.D0 \/ f = Decimal.D1 \/ f = Decimal.D2 \/ f = Decimal.D3
  \/ f = Decimal.D4 \/ f = Decimal.D5 \/ f = Decimal.D6 \/ f = Decimal.D7
  \/ f = Decimal.D8 \/ f = Decimal.D9 ->
  (DPU.of_lu (Decimal.rev (f d))
   = DPU.of_lu (Decimal.rev d)
     + DPU.of_lu (f Decimal.Nil) * 10 ^ DPU.usize d)%N.
Proof.
  intros Hf.
  assert (Decimal.rev (f d) = Decimal.revapp d (f Decimal.Nil)) as ->
    by (repeat destruct Hf as [->|Hf]; subst; done).
  apply DPU.of_lu_revapp.
Qed.

(** Reading a run of ASCII digits gives the number they spell. *)
Lemma int_digits_digits_of (a : N) k d :
  Py.int_digits T (Z.of_N a) k true (digits_of d)
  = Some (Z.of_N (a * 10 ^ DPU.usize d + DPU.of_lu (Decimal.rev d)),
          (k + length (digits_of d))%nat).
Proof.
  revert a k.
  induction d as [|d IH|d IH|d IH|d IH|d IH|d IH|d IH|d IH|d IH|d IH];
    intros a k.
  { cbn. do 2 f_equal; [lia|]. lia. }
  all: cbn [digits_of]; rewrite int_digits_digit by lia.
  all: match goal with
       | |- context [Z.of_N (?c - 48)] =>
         replace (10 * Z.of_N a + Z.of_N (c - 48))%Z
           with (Z.of_N (10 * a + (c - 48))) by lia
       end.
  all: rewrite IH, of_lu_rev_cons by tauto.
  all: cbn [DPU.usize length DPU.of_lu]; rewrite N.pow_succ_r'.
  all: do 2 f_equal; lia.
Qed.

Lemma decimal_cons n :
  exists c rest, decimal n = c :: rest /\ (48 <= c <= 57)%N.
Proof.
  pose proof (digits_of_digits (N.to_uint n)) as Hd. unfold decimal.
  destruct (digits_of (N.to_uint n)) as [|c rest] eqn:E.
  - exfalso. destruct n as [|p]; [done|]. cbn in E.
    pose proof (DPU.to_uint_nonnil p) as Hnil.
    by destruct (Pos.to_uint p).
  - apply Forall_cons in Hd as [Hc _]. eauto.
Qed.

(** [int] reads back the decimal numeral of [n], with any whitespace around
    it, provided the interpreter accepts that many digits. *)
Lemma int_decimal n (l r : text) :
  Forall (fun c => Py.isspace c = true) l ->
  Forall (fun c => Py.isspace c = true) r ->
  Py.int_digits_ok T (length (decimal n)) = true ->
  Py.int T (Py.strip (l ++ decimal n ++ r)) = Some (Z.of_N n).
Proof.
  intros Hl Hr Hok.
  pose proof (digits_of_digits (N.to_uint n)) as Hd. fold (decimal n) in Hd.
  unfold Py.strip. rewrite strip_by_core; [|done..|]; cycle 1.
  { eapply Forall_impl; [exact Hd|]. intros c Hc. cbv beta in Hc.
    unfold Py.isspace.
    rewrite ?orb_false_iff, ?andb_false_iff, ?N.leb_gt, ?N.eqb_neq. lia. }
  unfold Py.int.
  assert (Py.strip_by Py.int_space (decimal n) = decimal n) as ->.
  { pose proof (strip_by_core Py.int_space [] (decimal n) []) as Hcore.
    cbn [app] in Hcore. rewrite app_nil_r in Hcore.
    apply Hcore; [done..|].
    eapply Forall_impl; [exact Hd|]. intros c Hc. cbv beta in Hc.
    unfold Py.int_space.
    replace (c <? 127)%N with true by (symmetry; apply N.ltb_lt; lia).
    rewrite ?orb_false_iff, ?andb_false_iff, ?N.leb_gt, ?N.eqb_neq. lia. }
  destruct (decimal_cons n) as (c & rest & E & Hc).
  assert (Py.int_unsigned T (decimal n) = Some (Z.of_N n)) as Hu.
  { unfold Py.int_unsigned, decimal.
    destruct (N.to_uint n) as [|d|d|d|d|d|d|d|d|d|d] eqn:Eu;
      [by rewrite E in *; unfold decimal in E; rewrite Eu in E|..].
    all: cbn [digits_of]; rewrite int_digits_digit by lia.
    all: match goal with
         | |- context [Py.int_digits T ?z _ true _] =>
           let v := eval vm_compute in (Z.to_N z) in
           change z with (Z.of_N v)
         end.
    all: rewrite int_digits_digits_of.
    all: unfold decimal in Hok; rewrite Eu in Hok;
         cbn [digits_of length] in Hok.
    all: cbn [Nat.add]; rewrite Hok; f_equal; f_equal.
    all: rewrite <- (DNU.of_to n) at 1; rewrite Eu.
    all: change (N.of_uint ?u) with (Pos.of_uint u);
         rewrite DPU.of_uint_alt, of_lu_rev_cons by tauto.
    all: cbn [DPU.of_lu]; lia. }
  rewrite E in *. destruct c as [|p]; [lia|].
  do 6 (destruct p as [p|p|]; try lia); exact Hu.
Qed.

(** X5. On X11, when [xprintidle] prints the number of milliseconds [n] (with
    any whitespace around it, such as the final newline), the idle query
    returns [n] divided by 1000, rounded down. *)
Theorem xprintidle_milliseconds w h n (l r : text) :
  w h xprintidle = Completed (l ++ decimal n ++ r) ->
  Forall (fun c => Py.isspace c = true) l ->
  Forall (fun c => Py.isspace c = true) r ->
  Py.int_digits_ok T (length (decimal n)) = true ->
  get_idle_seconds_x11 T w h
  = (inr (Z.of_N (n / 1000)), h ++ [Run xprintidle]).
Proof.
  intros E Hl Hr Hok.
  rewrite get_idle_seconds_x11_eq, E, int_decimal by done.
  by rewrite N2Z.inj_div.
Qed.

Variable SESSION_TYPE : string.

(** X6. Truncating the idle time to whole seconds loses nothing against an
    integer threshold: on X11 a wake signal is ignored exactly when the
    last input was less than [1000 * active_threshold] milliseconds ago. *)
Theorem ignore_iff_milliseconds_below config w h n (l r : text) threshold :
  is_wayland SESSION_TYPE = false ->
  w h xprintidle = Completed (l ++ decimal n ++ r) ->
  Forall (fun c => Py.isspace c = true) l ->
  Forall (fun c => Py.isspace c = true) r ->
  Py.int_digits_ok T (length (decimal n)) = true ->
  dict_get config "active_threshold" (Py.Int 30) = Py.Int threshold ->
  decision_taken (emitted (handle_wake T SESSION_TYPE config) w h) = Ignore
  <-> (Z.of_N n < 1000 * threshold)%Z.
Proof.
  intros Hx E Hl Hr Hok Hcfg.
  assert (returned (get_idle_seconds T SESSION_TYPE) w h
          = inr (Z.of_N n / 1000)%Z) as Hidle.
  { unfold returned, get_idle_seconds. rewrite Hx.
    by rewrite get_idle_seconds_x11_eq, E, int_decimal. }
  destruct (is_screen_off_total T SESSION_TYPE w
              (h ++ [Run (idle_query SESSION_TYPE)])) as [off Eo].
  destruct (handle_wake_decision T SESSION_TYPE config w h threshold
              (Z.of_N n / 1000)%Z off Hcfg Hidle) as [_ ->];
    [unfold returned; by rewrite Eo|].
  unfold spec_decision.
  destruct (Z.ltb_spec (Z.of_N n / 1000) threshold) as [Hlt|Hge].
  - split; [intros _|done].
    destruct (Z.lt_ge_cases (Z.of_N n) (1000 * threshold)) as [|Hbig];
      [done|].
    apply Z.div_le_lower_bound in Hbig; lia.
  - split; [by destruct off|]. intros Hsmall.
    apply Z.div_lt_upper_bound in Hsmall; lia.
Qed.

(** *** Substring search *)

Lemma startswith_prefix needle hay :
  Py.startswith needle hay = true <-> exists post, hay = needle ++ post.
Proof.
  revert hay. induction needle as [|a needle IH]; intros hay; cbn.
  { split; eauto. }
  destruct hay as [|b hay]; [split; [done|by intros [? ?]]|].
  rewrite andb_true_iff, N.eqb_eq, IH. split.
  - intros [-> [post ->]]. eauto.
  - intros [post [= -> ->]]. eauto.
Qed.

Lemma contains_infix needle hay :
  Py.contains needle hay = true
  <-> exists pre post, hay = pre ++ needle ++ post.
Proof.
  induction hay as [|b hay IH]; cbn; rewrite orb_true_iff, startswith_prefix.
  - split.
    + intros [[post E]|]; [|done]. by exists [], post.
    + intros (pre & post & E). left.
      destruct pre as [|? pre]; [by exists post|done].
  - rewrite IH. split.
    + intros [[post E]|(pre & post & E)].
      * by exists [], post.
      * exists (b :: pre), post. by rewrite E.
    + intros ([|c pre] & post & E).
      * left. by exists post.
      * right. injection E as -> E. eauto.
Qed.

(** X7. On Wayland the screen counts as off exactly when the reply of the
    screensaver service holds the text "boolean true", wherever it stands
    in the reply. *)
Theorem screen_off_wayland_boolean_true w h :
  returned is_screen_off_wayland w h = inr true
  <-> exists pre post,
        w h dbus_GetActive
        = Completed (pre ++ text_of_string "boolean true" ++ post).
Proof.
  unfold returned. rewrite is_screen_off_wayland_eq. cbn [fst].
  destruct (w h dbus_GetActive) as [out|].
  - split.
    + intros [= (pre & post & ->)%contains_infix]. eauto.
    + intros (pre & post & [= ->]). f_equal. apply contains_infix. eauto.
  - split; [done|]. by intros (? & ? & ?).
Qed.

End Readings.

(** ** Decoding the payload *)

Section Decoding.

#[local] Ltac Zify.zify_post_hook ::= Z.to_euclidean_division_equations.

Lemma utf8_encode_bytes c :
  (c <= 0x10FFFF)%N -> Forall (fun b => (b < 256)%N) (utf8_encode c).
Proof.
  intros Hc. unfold utf8_encode.
  destruct (N.ltb_spec c 0x80);
    [repeat (apply List.Forall_cons; [lia|]); apply List.Forall_nil|].
  destruct (N.ltb_spec c 0x800);
    [repeat (apply List.Forall_cons; [lia|]); apply List.Forall_nil|].
  destruct (N.ltb_spec c 0x10000);
    repeat (apply List.Forall_cons; [lia|]); apply List.Forall_nil.
Qed.

(** Decoding undoes encoding, one code point at a time. *)
Lemma utf8_decode_encode c rest :
  scalar c = true ->
  Py.utf8_decode (utf8_encode c ++ rest) = c :: Py.utf8_decode rest.
Proof.
  unfold scalar, utf8_encode. intros Hc.
  destruct (N.ltb_spec c 0x80) as [H1|H1].
  { cbn [app Py.utf8_decode]. by apply N.ltb_lt in H1 as ->. }
  destruct (N.ltb_spec c 0x800) as [H2|H2].
  { cbn [app Py.utf8_decode]. unfold Py.is_cont.
    replace (0xC0 + c / 64 <? 0x80)%N with false by (symmetry; bool_lia).
    replace (0xC0 + c / 64 <? 0xC2)%N with false by (symmetry; bool_lia).
    replace (0xC0 + c / 64 <? 0xE0)%N with true by (symmetry; bool_lia).
    replace ((0x80 <=? 0x80 + c mod 64) && (0x80 + c mod 64 <=? 0xBF))%N
      with true by (symmetry; bool_lia).
    f_equal. lia. }
  destruct (N.ltb_spec c 0x10000) as [H3|H3].
  { cbn [app Py.utf8_decode]. unfold Py.second_ok, Py.is_cont.
    replace (0xE0 + c / 4096 <? 0x80)%N with false by (symmetry; bool_lia).
    replace (0xE0 + c / 4096 <? 0xC2)%N with false by (symmetry; bool_lia).
    replace (0xE0 + c / 4096 <? 0xE0)%N with false by (symmetry; bool_lia).
    replace (0xE0 + c / 4096 <? 0xF0)%N with true by (symmetry; bool_lia).
    match goal with
    | |- (if ?b then _ else _) = _ =>
      replace b with true by (symmetry; bool_lia)
    end.
    replace ((0x80 <=? 0x80 + c mod 64) && (0x80 + c mod 64 <=? 0xBF))%N
      with true by (symmetry; bool_lia).
    f_equal. lia. }
  cbn [app Py.utf8_decode]. unfold Py.second_ok, Py.is_cont.
  replace (0xF0 + c / 262144 <? 0x80)%N with false by (symmetry; bool_lia).
  replace (0xF0 + c / 262144 <? 0xC2)%N with false by (symmetry; bool_lia).
  replace (0xF0 + c / 262144 <? 0xE0)%N with false by (symmetry; bool_lia).
  replace (0xF0 + c / 262144 <? 0xF0)%N with false by (symmetry; bool_lia).
  replace (0xF0 + c / 262144 <? 0xF5)%N with true by (symmetry; bool_lia).
  match goal with
  | |- (if ?b then _ else _) = _ =>
    replace b with true by (symmetry; bool_lia)
  end.
  replace ((0x80 <=? 0x80 + (c / 64) mod 64)
           && (0x80 + (c / 64) mod 64 <=? 0xBF))%N
    with true by (symmetry; bool_lia).
  replace ((0x80 <=? 0x80 + c mod 64) && (0x80 + c mod 64 <=? 0xBF))%N
    with true by (symmetry; bool_lia).
  f_equal. lia.
Qed.

Lemma utf8_round_trip_text t :
  Forall (fun c => scalar c = true) t -> Py.utf8_decode (encode t) = t.
Proof.
  induction 1 as [|c t Hc _ IH]; [done|].
  unfold encode. cbn [flat_map]. rewrite utf8_decode_encode by done.
  f_equal. exact IH.
Qed.

Lemma bytes_of_N_to_N (l : list N) :
  Forall (fun b => (b < 256)%N) l -> map Byte.to_N (omap Byte.of_N l) = l.
Proof.
  induction 1 as [|b l Hb _ IH]; [done|]. cbn.
  destruct (Byte.of_N b) as [y|] eqn:E.
  - cbn. apply Byte.to_of_N in E. by rewrite IH, E.
  - apply Byte.of_N_None_iff in E. lia.
Qed.

Lemma decode_payload_of_text t :
  Forall (fun c => scalar c = true) t -> Py.decode (payload_of_text t) = t.
Proof.
  intros Ht. unfold Py.decode, payload_of_text.
  rewrite bytes_of_N_to_N; [by apply utf8_round_trip_text|].
  unfold encode. induction Ht as [|c t Hc _ IH]; [constructor|].
  cbn [flat_map]. apply Forall_app. split; [|done].
  apply utf8_encode_bytes. unfold scalar in Hc. bool_lia.
Qed.

(** A byte that cannot occur in UTF-8 always decodes to U+FFFD, wherever it
    stands. *)
Lemma decode_impossible_byte n :
  forall bs b,
    (length bs <= n)%nat -> In b bs -> impossible_byte b ->
    In Py.REPLACEMENT (Py.utf8_decode bs).
Proof.
  induction n as [|n IH]; intros bs b Hlen Hin Hb.
  { destruct bs; [done|cbn in Hlen; lia]. }
  destruct bs as [|b1 r1]; [done|]. cbn [Py.utf8_decode].
  unfold impossible_byte in Hb.
  repeat match goal with
         | |- context [if ?c then _ else _] => destruct c eqn:?
         | |- context [match ?l with [] => _ | _ :: _ => _ end] =>
           is_var l; destruct l
         end.
  all: try (left; reflexivity).
  all: right; apply (IH _ b); [cbn in *; lia| |done].
  all: unfold Py.second_ok, Py.is_cont in *.
  all: cbn [In] in Hin.
  all: repeat match goal with
              | H : _ \/ _ |- _ => destruct H as [H|H]
              end.
  all: try done.
  all: exfalso; subst; bool_lia.
Qed.

Lemma replacement_not_wake payload :
  In Py.REPLACEMENT (Py.decode payload) -> ~ wake_payload payload.
Proof.
  intros Hin (l & r & E & Hl & Hr). rewrite E in Hin.
  rewrite !in_app_iff in Hin. rewrite !List.Forall_forall in *.
  destruct Hin as [Hin|[Hin|Hin]].
  - by apply Hl in Hin.
  - cbn in Hin. by repeat destruct Hin as [Hin|Hin].
  - by apply Hr in Hin.
Qed.

End Decoding.

Section Payloads.

Variable T : Py.tables.
Variable SESSION_TYPE : string.

(** X8. Decoding undoes UTF-8 encoding: a publisher that sends the encoding of
    a text [t] is heard as [t], so the handler runs exactly when [t] is
    "wake" with any Unicode whitespace around it, and does nothing
    otherwise. *)
Theorem utf8_payload_round_trip _config (t : text) w h :
  Forall (fun c => scalar c = true) t ->
  Py.decode (payload_of_text t) = t
  /\ on_message T SESSION_TYPE _config (payload_of_text t) w h
     = if bool_decide (Py.strip t = text_of_string "wake")
       then handle_wake T SESSION_TYPE _config w h
       else (inr tt, h).
Proof.
  intros Ht. split; [by apply decode_payload_of_text|].
  unfold on_message, text_eqb. rewrite decode_payload_of_text by done.
  by destruct (bool_decide _).
Qed.

(** X9. A payload that holds a byte which occurs in no UTF-8 sequence (0xC0,
    0xC1, 0xF5 and above) is never acted on, whatever surrounds the byte:
    the byte decodes to U+FFFD, which is neither whitespace nor part of
    "wake". *)
Theorem impossible_byte_ignored _config payload b w h :
  In b payload -> impossible_byte (Byte.to_N b) ->
  on_message T SESSION_TYPE _config payload w h = (inr tt, h).
Proof.
  intros Hin Hb. unfold on_message, text_eqb.
  rewrite bool_decide_eq_false_2; [done|].
  rewrite <- wake_payload_iff. apply replacement_not_wake.
  unfold Py.decode.
  apply (decode_impossible_byte (length (map Byte.to_N payload)) _
           (Byte.to_N b)); [done| |done].
  by apply in_map.
Qed.

End Payloads.

(** ** The DPMS timeout of the setup *)

Section DpmsProperties.

Variable T : Py.tables.
Variable SESSION_TYPE : string.

Lemma int_groups_eq gs indices w h :
  int_groups T gs indices w h
  = (match parsed_groups T gs indices with
     | Some vs => inr vs
     | None => inl Py.ValueError
     end, h).
Proof.
  unfold parsed_groups. revert w h.
  induction indices as [|i indices IH]; intros w h; [done|].
  cbn [int_groups mapM]. unfold bind at 1, or_raise.
  destruct (Re.group gs i) as [g|]; [|done]. cbn.
  unfold bind at 1. destruct (Py.int T g) as [v|]; [|done]. cbn.
  unfold bind. rewrite IH.
  by destruct (mapM _ indices).
Qed.

Lemma get_dpms_timeout_seconds_eq w h :
  String.eqb SESSION_TYPE "x11" = true ->
  get_dpms_timeout_seconds T SESSION_TYPE w h
  = (inr match w h xset_q with
         | Completed out =>
           match Re.search T re_standby out with
           | Some gs =>
             match parsed_groups T gs [1; 2; 3]%nat with
             | Some values =>
               match filter (fun v => (0 <? v)%Z) values with
               | v :: vs => min_of v vs
               | [] => 0%Z
               end
             | None => 0%Z
             end
           | None => 0%Z
           end
         | Failed => 0%Z
         end,
     h ++ [Run xset_q]).
Proof.
  intros Hx. unfold get_dpms_timeout_seconds. rewrite Hx. cbn [negb].
  unfold bind at 1, try_except, bind at 1, subprocess_run.
  destruct (w h xset_q) as [out|]; [|done].
  destruct (Re.search T re_standby out) as [gs|]; [|done].
  unfold bind at 1. rewrite int_groups_eq.
  destruct (parsed_groups T gs [1; 2; 3]%nat) as [values|]; [|done].
  by destruct (filter _ values).
Qed.

Lemma min_of_spec v vs :
  (In (min_of v vs) (v :: vs)
   /\ Forall (fun x => min_of v vs <= x) (v :: vs))%Z.
Proof.
  unfold min_of. revert v. induction vs as [|x vs IH]; intros v; cbn.
  { split; [by left|]. repeat constructor. lia. }
  destruct (IH (Z.min v x)) as [Hin Hall].
  apply Forall_cons in Hall as [Hm Hall]. split.
  - destruct Hin as [Hin|Hin]; [|by right; right].
    rewrite <- Hin. destruct (Z.min_spec v x) as [[_ ->]|[_ ->]]; auto.
  - repeat constructor; [lia..|done].
Qed.

(** X10. Detecting the DPMS timeout never raises and never gives a negative
    number; it runs [xset q] once on an "x11" session and nothing at all on
    any other session, for which the answer is 0. *)
Theorem dpms_timeout_safe w h :
  exists seconds evs,
    get_dpms_timeout_seconds T SESSION_TYPE w h = (inr seconds, h ++ evs)
    /\ (0 <= seconds)%Z
    /\ (if String.eqb SESSION_TYPE "x11" then evs = [Run xset_q]
        else evs = [] /\ seconds = 0%Z).
Proof.
  destruct (String.eqb SESSION_TYPE "x11") eqn:Hx.
  - rewrite get_dpms_timeout_seconds_eq by done.
    eexists _, _. split; [done|]. split; [|done].
    destruct (w h xset_q) as [out|]; [|done].
    destruct (Re.search T re_standby out) as [gs|]; [|done].
    destruct (parsed_groups T gs [1; 2; 3]%nat) as [values|]; [|done].
    destruct (filter _ values) as [|v vs] eqn:Ef; [done|].
    destruct (min_of_spec v vs) as [Hin _].
    rewrite <- Ef in Hin.
    apply list_elem_of_In, list_elem_of_filter in Hin as [Hpos _].
    apply Is_true_true in Hpos. lia.
  - unfold get_dpms_timeout_seconds. rewrite Hx. cbn [negb].
    exists 0%Z, []. by rewrite app_nil_r.
Qed.

(** X11. When [xset q] reports the three DPMS timeouts [standby], [suspend] and
    [off], the detected timeout is the least of those that are positive,
    and 0 when none is. *)
Theorem dpms_timeout_least_positive w h out g1 g2 g3 standby suspend off :
  String.eqb SESSION_TYPE "x11" = true ->
  w h xset_q = Completed out ->
  Re.search T re_standby out = Some [g1; g2; g3] ->
  Py.int T g1 = Some standby ->
  Py.int T g2 = Some suspend ->
  Py.int T g3 = Some off ->
  exists seconds,
    returned (get_dpms_timeout_seconds T SESSION_TYPE) w h = inr seconds
    /\ (seconds = 0 <-> standby <= 0 /\ suspend <= 0 /\ off <= 0)%Z
    /\ (seconds <> 0 ->
        In seconds [standby; suspend; off]
        /\ Forall (fun v => 0 < v -> seconds <= v) [standby; suspend; off])%Z.
Proof.
  intros Hx E Hre H1 H2 H3. unfold returned.
  rewrite get_dpms_timeout_seconds_eq, E, Hre by done.
  unfold parsed_groups, Re.group. cbn [mapM lookup list_lookup Nat.sub].
  cbn. rewrite H1. cbn. rewrite H2. cbn. rewrite H3. cbn.
  eexists. split; [done|].
  repeat destruct (decide _)
    as [?%Is_true_true%Z.ltb_lt | ?%Is_true_false%Z.ltb_ge].
  all: unfold min_of; cbn [fold_left].
  all: repeat match goal with
              | |- context [Z.min ?a ?b] =>
                destruct (Z.min_spec a b) as [[? ->]|[? ->]]
              end.
  all: split; [lia|]; intros Hne.
  all: split;
    [cbn; auto; lia
    |repeat (apply List.Forall_cons; [lia|]); apply List.Forall_nil].
Qed.

(** X12. A session type that is neither "x11" nor "wayland" is inconsistent:
    the probes treat it as X11 and run the X11 tools, but the setup takes
    the DPMS timeout for 0 without asking [xset]. *)
Theorem dpms_timeout_other_session w h :
  String.eqb SESSION_TYPE "x11" = false ->
  String.eqb SESSION_TYPE "wayland" = false ->
  get_dpms_timeout_seconds T SESSION_TYPE w h = (inr 0%Z, h)
  /\ is_screen_off T SESSION_TYPE = is_screen_off_x11 T
  /\ get_idle_seconds T SESSION_TYPE = get_idle_seconds_x11 T
  /\ power_query SESSION_TYPE = xset_q.
Proof.
  intros Hx Hw.
  unfold get_dpms_timeout_seconds, is_screen_off, get_idle_seconds,
    power_query, is_wayland.
  by rewrite Hx, Hw.
Qed.

End DpmsProperties.

(** ** Looking for the broker *)

Section FindBroker.

Import Sys.

Lemma io_run_emitted {A} (m : io A) w h r evs :
  m w h = (r, h ++ evs) -> io_returned m w h = r /\ io_emitted m w h = evs.
Proof.
  intros E. unfold io_returned, io_emitted. rewrite E. split; [done|].
  apply drop_app_length.
Qed.

Lemma test_broker_eq host port w h :
  test_broker host port w h
  = (match w_create_connection w h host port with
     | None => inr true
     | Some e => if is_OSError e then inr false else inl e
     end,
     h ++ [CreateConnection host port (w_create_connection w h host port)]).
Proof.
  unfold test_broker. run_io.
  destruct (w_create_connection w h host port) as [e|]; [|done].
  by destruct (is_OSError e).
Qed.

(** The loop over the candidates: the attempts are made in the order of
    the list, on port 1883; all but the last were refused; the last decides
    the outcome. *)
Lemma try_candidates_spec cs w h :
  exists r evs pre,
    try_candidates cs w h = (r, h ++ evs)
    /\ resolved evs = []
    /\ Forall refused pre
    /\ match r with
       | inr (Some host) =>
         attempts evs = pre ++ [(host, 1883%Z, None)]
         /\ map (fun a => a.1) (attempts evs)
            = map (fun c => (text_of_string c, 1883%Z))
                (take (S (length pre)) cs)
       | inr None =>
         attempts evs = pre
         /\ map (fun a => a.1) pre
            = map (fun c => (text_of_string c, 1883%Z)) cs
       | inl e =>
         is_OSError e = false
         /\ exists host, attempts evs = pre ++ [(host, 1883%Z, Some e)]
         /\ map (fun a => a.1) (attempts evs)
            = map (fun c => (text_of_string c, 1883%Z))
                (take (S (length pre)) cs)
       end.
Proof.
  revert w h. induction cs as [|c cs IH]; intros w h.
  { exists (inr None), [], []. cbn. by rewrite app_nil_r. }
  cbn [try_candidates]. run_io. rewrite test_broker_eq.
  destruct (w_create_connection w _ (text_of_string c) 1883) as [e|] eqn:Ew;
    cycle 1.
  { eexists (inr (Some _)), _, []. split; [trace_eq|]. by cbn. }
  destruct (is_OSError e) eqn:He; cycle 1.
  { eexists (inl e), _, []. split; [trace_eq|]. cbn.
    repeat split; try done. by eexists. }
  destruct (IH w (((h ++ [Print (trying (text_of_string c))])
                   ++ [CreateConnection (text_of_string c) 1883 (Some e)])
                  ++ [Print no])) as (r & evs & pre & -> & Hres & Hpre & Hr).
  exists r,
    ([Print (trying (text_of_string c));
      CreateConnection (text_of_string c) 1883 (Some e); Print no] ++ evs),
    ((text_of_string c, 1883%Z, Some e) :: pre).
  split; [by rewrite <- !app_assoc|]. split; [done|].
  split; [constructor; [by exists e|done]|].
  change (attempts ([Print (trying (text_of_string c));
                     CreateConnection (text_of_string c) 1883 (Some e);
                     Print no] ++ evs))
    with ((text_of_string c, 1883%Z, Some e) :: attempts evs).
  destruct r as [e'|[host|]].
  - destruct Hr as (? & host & Hat & Hhosts). split; [done|]. exists host.
    cbn [map take length app]. by rewrite Hhosts, Hat.
  - destruct Hr as (Hat & Hhosts).
    cbn [map take length app]. by rewrite Hhosts, Hat.
  - destruct Hr as (Hat & Hhosts). rewrite Hat. split; [done|].
    cbn [map]. by rewrite Hhosts.
Qed.

Lemma attempts_cons e evs :
  attempts (e :: evs)
  = match e with
    | CreateConnection host port raised => [(host, port, raised)]
    | _ => []
    end ++ attempts evs.
Proof. by destruct e. Qed.

Lemma attempts_app evs1 evs2 :
  attempts (evs1 ++ evs2) = attempts evs1 ++ attempts evs2.
Proof. apply omap_app. Qed.

Lemma resolved_cons e evs :
  resolved (e :: evs)
  = match e with
    | GetHostByName _ (inr ip) => [ip]
    | _ => []
    end ++ resolved evs.
Proof. by destruct e as [| | | |? []| | | | | | | | |]. Qed.

Lemma resolved_app evs1 evs2 :
  resolved (evs1 ++ evs2) = resolved evs1 ++ resolved evs2.
Proof. apply omap_app. Qed.

(** the attempts and the resolved addresses of an explicit list of events *)
Ltac events_simpl :=
  rewrite ?attempts_cons, ?resolved_cons, ?attempts_app, ?resolved_app,
    ?attempts_cons, ?resolved_cons;
  change (attempts []) with (@nil (text * Z * option exn));
  change (resolved []) with (@nil text);
  cbn [app]; rewrite ?app_nil_r.

(** [find_broker] as a whole. *)
Lemma find_broker_spec w h :
  exists r evs pre,
    find_broker w h = (r, h ++ evs)
    /\ Forall refused pre
    /\ (exists n,
          map (fun a => a.1) (attempts evs)
          = take n (map (fun host => (host, 1883%Z))
                      (map text_of_string candidates ++ resolved evs))
          /\ (resolved evs <> [] -> (4 <= n)%nat))
    /\ match r with
       | inr (Some host) => attempts evs = pre ++ [(host, 1883%Z, None)]
       | inr None => attempts evs = pre
       | inl e => True
       end.
Proof.
  unfold find_broker. run_io.
  destruct (try_candidates_spec candidates w
              (h ++ [Print searching_for_broker]))
    as (r & evs & pre & -> & Hres & Hpre & Hr).
  destruct r as [e|[host|]].
  - destruct Hr as (He & host & Hat & Hhosts).
    exists (inl e), (Print searching_for_broker :: evs), pre.
    split; [by rewrite <- app_assoc|]. split; [done|]. split; [|done].
    exists (S (length pre)). events_simpl. rewrite Hres, app_nil_r.
    split; [|done]. rewrite Hhosts. by rewrite !firstn_map, map_map.
  - destruct Hr as (Hat & Hhosts).
    exists (inr (Some host)), (Print searching_for_broker :: evs), pre.
    split; [by rewrite <- app_assoc|]. split; [done|]. split; [|done].
    exists (S (length pre)). events_simpl. rewrite Hres, app_nil_r.
    split; [|done]. rewrite Hhosts. by rewrite !firstn_map, map_map.
  - destruct Hr as (Hat & Hhosts).
    assert (length pre = 4%nat) as Hlen
      by (apply (f_equal length) in Hhosts; by rewrite !length_map in Hhosts).
    assert (map (fun a : text * Z * option exn => a.1) pre
            = map (fun host => (host, 1883%Z))
                (map text_of_string candidates)) as Hhosts'
      by (by rewrite Hhosts, map_map).
    destruct (w_gethostbyname w _ (text_of_string "homeassistant.local"))
      as [e|ip] eqn:Eg.
    + (* the name does not resolve *)
      exists (match e with gaierror => inr None | _ => inl e end),
        (Print searching_for_broker
           :: evs
           ++ GetHostByName (text_of_string "homeassistant.local") (inl e)
           :: match e with
              | gaierror => [Print autodetection_failed]
              | _ => []
              end),
        pre.
      split; [destruct e; trace_eq|]. split; [done|].
      assert (attempts
                (Print searching_for_broker
                   :: evs
                   ++ GetHostByName (text_of_string "homeassistant.local")
                        (inl e)
                   :: match e with
                      | gaierror => [Print autodetection_failed]
                      | _ => []
                      end) = pre
              /\ resolved
                   (Print searching_for_broker
                      :: evs
                      ++ GetHostByName (text_of_string "homeassistant.local")
                           (inl e)
                      :: match e with
                         | gaierror => [Print autodetection_failed]
                         | _ => []
                         end) = []) as [-> ->]
        by (destruct e; events_simpl; by rewrite Hat, Hres).
      split; [|by destruct e]. exists 4%nat. split; [|done].
      rewrite app_nil_r, Hhosts'. by rewrite take_ge by (cbn; lia).
    + rewrite test_broker_eq.
      destruct (w_create_connection w _ ip 1883) as [e|] eqn:Ew.
      * destruct e; cbn [is_OSError].
        1, 2: match goal with
              | Ew : _ = Some ?e |- _ =>
                eexists (inr None), _, (pre ++ [(ip, 1883%Z, Some e)])
              end;
          (split; [trace_eq|]);
          (split; [apply Forall_app; split; [done|];
                   constructor; [by eexists|done]|]);
          events_simpl; rewrite Hat, Hres; cbn [app];
          (split; [|done]); exists 5%nat; (split; [|intros; lia]);
          rewrite map_app, Hhosts'; by cbn.
        all: eexists (inl _), _, pre; (split; [trace_eq|]);
          (split; [done|]); (split; [|done]);
          events_simpl; rewrite Hat, Hres; cbn [app];
          exists 5%nat; (split; [|intros; lia]);
          rewrite map_app, Hhosts'; by cbn.
      * eexists (inr (Some ip)), _, pre. split; [trace_eq|]. split; [done|].
        events_simpl. rewrite Hat, Hres. cbn [app]. split; [|done].
        exists 5%nat. split; [|intros; lia].
        rewrite map_app, Hhosts'. by cbn.
Qed.

(** X13. When [find_broker] returns a host, the last connection it attempted was
    to that host on port 1883 and succeeded, and every attempt before it
    was refused; when it returns nothing, every attempt was refused. *)
Theorem find_broker_found_is_reachable w h :
  exists pre,
    Forall refused pre
    /\ match io_returned find_broker w h with
       | inr (Some host) =>
         attempts (io_emitted find_broker w h)
         = pre ++ [(host, 1883%Z, None)]
       | inr None => attempts (io_emitted find_broker w h) = pre
       | inl _ => True
       end.
Proof.
  destruct (find_broker_spec w h) as (r & evs & pre & E & Hpre & _ & Hr).
  apply io_run_emitted in E as [-> ->]. by exists pre.
Qed.


End FindBroker.

(** ** Asking the user *)

Section Prompt.

Import Sys.

Lemma lstrip_by_idem p s :
  Py.lstrip_by p (Py.lstrip_by p s) = Py.lstrip_by p s.
Proof.
  induction s as [|c s IH]; [done|]. cbn. destruct (p c) eqn:Hc; [done|].
  cbn. by rewrite Hc.
Qed.

Lemma lstrip_by_snoc p s c :
  p c = false -> Py.lstrip_by p (s ++ [c]) = Py.lstrip_by p s ++ [c].
Proof.
  intros Hc. induction s as [|x s IH]; cbn; [by rewrite Hc|].
  by destruct (p x).
Qed.

(** Stripping twice is stripping once. *)
Lemma strip_by_idem p s :
  Py.strip_by p (Py.strip_by p s) = Py.strip_by p s.
Proof.
  unfold Py.strip_by.
  assert (forall t, Py.rstrip_by p (Py.rstrip_by p t) = Py.rstrip_by p t)
    as Hr.
  { intros t. unfold Py.rstrip_by.
    by rewrite rev_involutive, lstrip_by_idem. }
  assert (Py.lstrip_by p (Py.rstrip_by p (Py.lstrip_by p s))
          = Py.rstrip_by p (Py.lstrip_by p s)) as ->; [|apply Hr].
  destruct (lstrip_split p s) as (l & _ & _).
  assert (Py.lstrip_by p s = []
          \/ exists c t, Py.lstrip_by p s = c :: t /\ p c = false)
    as [->|(c & t & -> & Hc)].
  { clear. induction s as [|c s IH]; cbn; [by left|].
    destruct (p c) eqn:Hc; [done|]. right. eauto. }
  { done. }
  unfold Py.rstrip_by. cbn [rev]. rewrite lstrip_by_snoc by done.
  rewrite rev_app_distr. cbn [rev app]. by rewrite lstrip_stop.
Qed.

(** X15. With a default, [prompt] never returns an empty answer; and
    whatever it returns that is not the default is what the user typed at
    its one question, trimmed, so that trimming it again changes nothing. *)
Theorem prompt_answer text_ default w h r :
  io_returned (prompt text_ default) w h = inr r ->
  (default <> [] -> r <> [])
  /\ (r = default
      \/ (Py.strip r = r
          /\ exists question typed,
               io_emitted (prompt text_ default) w h
               = [Input question (inr typed)]
               /\ r = Py.strip typed)).
Proof.
  unfold io_returned, io_emitted, prompt.
  destruct default as [|d default]; run_io.
  - destruct (w_input w h _) as [e|typed] eqn:E; [done|].
    intros [= <-]. split; [done|]. right. unfold Py.strip.
    split; [apply strip_by_idem|].
    eexists _, typed. cbn. by rewrite drop_app_length.
  - destruct (w_input w h _) as [e|typed] eqn:E; [done|].
    destruct (Py.strip typed) as [|c t] eqn:Hs; intros [= <-].
    + split; [done|]. by left.
    + split; [done|]. right. rewrite <- Hs. unfold Py.strip.
      split; [apply strip_by_idem|].
      eexists _, typed. cbn. by rewrite drop_app_length.
Qed.

End Prompt.

(** ** Checking the dependencies *)

Section CheckDependencies.

Import Sys.

Variable T : Py.tables.
Variable SESSION_TYPE : string.

Lemma looked_for_cons e evs :
  looked_for (e :: evs)
  = match e with Which tool answer => [(tool, answer)] | _ => [] end
    ++ looked_for evs.
Proof. by destruct e. Qed.

Lemma looked_for_app evs1 evs2 :
  looked_for (evs1 ++ evs2) = looked_for evs1 ++ looked_for evs2.
Proof. apply omap_app. Qed.

Lemma printed_cons e evs :
  printed (e :: evs)
  = match e with Print l => [l] | _ => [] end ++ printed evs.
Proof. by destruct e. Qed.

Lemma printed_app evs1 evs2 :
  printed (evs1 ++ evs2) = printed evs1 ++ printed evs2.
Proof. apply omap_app. Qed.

Ltac checks_simpl :=
  rewrite ?looked_for_cons, ?printed_cons, ?looked_for_app, ?printed_app,
    ?looked_for_cons, ?printed_cons;
  change (looked_for []) with (@nil (string * bool));
  change (printed []) with (@nil line);
  cbn [app]; rewrite ?app_nil_r.

(** The loop over the tools adds one issue for each tool not found. *)
Lemma check_tools_spec tools issues w h :
  exists issues' evs,
    check_tools tools issues w h = (inr issues', h ++ evs)
    /\ map fst (looked_for evs) = tools
    /\ ~ In missing_dependencies (printed evs)
    /\ (issues' = []
        <-> issues = [] /\ Forall (fun a => a.2 = true) (looked_for evs)).
Proof.
  revert issues w h. induction tools as [|tool tools IH]; intros issues w h.
  { exists issues, []. cbn [check_tools]. run_io. rewrite app_nil_r.
    split; [done|]. split; [done|]. split; [by intros []|].
    split; [by intros ->|by intros [-> _]]. }
  cbn [check_tools]. run_io.
  destruct (w_which w h tool) eqn:Ew.
  - destruct (IH issues w ((h ++ [Which tool true]) ++ [Print (tool_ok tool)]))
      as (issues' & evs & -> & Htools & Hno & Hiff).
    exists issues', ([Which tool true; Print (tool_ok tool)] ++ evs).
    split; [by rewrite <- !app_assoc|]. checks_simpl.
    split; [cbn; by rewrite Htools|]. split; [by intros [|]|].
    rewrite Hiff. split.
    + intros [-> Hall]. split; [done|]. by constructor.
    + intros [-> Hall]. split; [done|]. by apply Forall_cons in Hall as [_ ?].
  - destruct (IH (issues
                  ++ [not_found tool
                        (if String.eqb tool "xset" then "x11-xserver-utils"
                         else tool)])
                w ((h ++ [Which tool false]) ++ [Print (tool_missing tool)]))
      as (issues' & evs & -> & Htools & Hno & Hiff).
    exists issues', ([Which tool false; Print (tool_missing tool)] ++ evs).
    split; [by rewrite <- !app_assoc|]. checks_simpl.
    split; [cbn; by rewrite Htools|]. split; [by intros [|]|].
    rewrite Hiff. split.
    + intros [Hnil _]. by destruct issues.
    + intros [_ [Hfalse _]%Forall_cons]. done.
Qed.

Lemma print_issues_spec issues w h :
  exists evs,
    print_issues issues w h = (inr tt, h ++ evs)
    /\ looked_for evs = []
    /\ ~ In missing_dependencies (printed evs).
Proof.
  revert w h. induction issues as [|i issues IH]; intros w h.
  { exists []. cbn [print_issues]. run_io. rewrite app_nil_r.
    split; [done|]. split; [done|]. by intros []. }
  cbn [print_issues]. run_io.
  destruct (IH w (h ++ [Print (issue_line i)])) as (evs & -> & Hl & Hno).
  exists (Print (issue_line i) :: evs).
  split; [by rewrite <- app_assoc|]. checks_simpl.
  split; [done|]. by intros [|].
Qed.

(** The run of [check_dependencies]: the tools asked for, the result and
    what is printed. *)
Lemma check_dependencies_spec w h :
  exists ok evs,
    check_dependencies SESSION_TYPE w h = (inr ok, h ++ evs)
    /\ map fst (looked_for evs)
       = (if String.eqb SESSION_TYPE "wayland" then ["dbus-send"]
          else ["xset"; "xdotool"; "xprintidle"])
    /\ (ok = true <-> Forall (fun a => a.2 = true) (looked_for evs))
    /\ (In missing_dependencies (printed evs) <-> ok = false).
Proof.
  unfold check_dependencies. run_io.
  destruct (String.eqb SESSION_TYPE "wayland"); run_io.
  - destruct (w_which w _ "dbus-send") eqn:Ew.
    + eexists true, _. split; [trace_eq|]. checks_simpl.
      repeat split; try done.
      * by repeat constructor.
      * by intros [|[|[|[|]]]].
    + cbn [print_issues]. run_io.
      eexists false, _. split; [trace_eq|]. checks_simpl.
      repeat split; try done.
      * by intros [? _]%Forall_cons.
      * intros _. cbn. tauto.
  - destruct (check_tools_spec ["xset"; "xdotool"; "xprintidle"] [] w
                (((h ++ [Print checking_dependencies])
                  ++ [Print paho_mqtt_ok]) ++ [Print session_type_x11]))
      as (issues & evs & -> & Htools & Hno & Hiff).
    destruct issues as [|i issues].
    + exists true,
        ([Print checking_dependencies; Print paho_mqtt_ok;
          Print session_type_x11] ++ evs).
      split; [by rewrite <- !app_assoc|]. checks_simpl.
      split; [done|]. split.
      * split; [intros _|done]. by apply Hiff.
      * split; [|done]. intros [|[|[|]]]; done.
    + destruct (print_issues_spec (i :: issues) w
                  ((((((h ++ [Print checking_dependencies])
                       ++ [Print paho_mqtt_ok]) ++ [Print session_type_x11])
                     ++ evs)) ++ [Print missing_dependencies]))
        as (evs2 & E2 & Hl2 & Hno2).
      rewrite E2.
      exists false,
        ([Print checking_dependencies; Print paho_mqtt_ok;
          Print session_type_x11] ++ evs ++ [Print missing_dependencies]
         ++ evs2 ++ [Print install_them]).
      split; [by rewrite <- !app_assoc|]. checks_simpl.
      rewrite Hl2, app_nil_r. split; [done|]. split.
      * split; [done|]. intros Hall. destruct Hiff as [_ Hb].
        by specialize (Hb (conj eq_refl Hall)).
      * split; [done|]. intros _. do 3 right.
        rewrite in_app_iff. right. by left.
Qed.

(** X16. [check_dependencies] looks for "dbus-send" on a Wayland session and for
    "xset", "xdotool" and "xprintidle" on any other; it returns [True]
    exactly when all of them were found, and prints the list of missing
    dependencies exactly when it returns [False]. *)
Theorem check_dependencies_result w h :
  exists ok,
    io_returned (check_dependencies SESSION_TYPE) w h = inr ok
    /\ map fst (looked_for (io_emitted (check_dependencies SESSION_TYPE) w h))
       = (if String.eqb SESSION_TYPE "wayland" then ["dbus-send"]
          else ["xset"; "xdotool"; "xprintidle"])
    /\ (ok = true
        <-> Forall (fun a => a.2 = true)
              (looked_for (io_emitted (check_dependencies SESSION_TYPE) w h)))
    /\ (In missing_dependencies
          (printed (io_emitted (check_dependencies SESSION_TYPE) w h))
        <-> ok = false).
Proof.
  destruct (check_dependencies_spec w h) as (ok & evs & E & Hrest).
  apply io_run_emitted in E as [-> ->]. by exists ok.
Qed.

(** X17. When [check_dependencies] returned [True], the executable of every
    command a message can make the session run is one of the tools the
    check found.  The check also demands "xdotool", which no command
    runs. *)
Theorem checked_tools_cover_commands ws hs _config payload w h c :
  io_returned (check_dependencies SESSION_TYPE) ws hs = inr true ->
  In c (commands_run
          (emitted (on_message T SESSION_TYPE _config payload) w h)) ->
  In (executable c, true)
    (looked_for (io_emitted (check_dependencies SESSION_TYPE) ws hs))
  /\ executable c <> "xdotool"
  /\ (is_wayland SESSION_TYPE = false ->
      In ("xdotool", true)
        (looked_for (io_emitted (check_dependencies SESSION_TYPE) ws hs))).
Proof.
  intros Hok Hc.
  destruct (check_dependencies_spec ws hs)
    as (ok & evs & E & Htools & Hall & _).
  apply io_run_emitted in E as [Hr ->]. rewrite Hr in Hok.
  injection Hok as ->. destruct Hall as [Hall _]. specialize (Hall eq_refl).
  pose proof (on_message_backend T SESSION_TYPE _config payload w h) as Hb.
  rewrite List.Forall_forall in Hb. specialize (Hb c Hc).
  unfold is_wayland in *.
  set (l := looked_for _) in *. clearbody l.
  assert (forall tool, In tool (map fst l) -> In (tool, true) l) as Hin.
  { intros tool ((tool' & b) & <- & Hi)%in_map_iff.
    rewrite List.Forall_forall in Hall. specialize (Hall _ Hi).
    cbn in *. by subst. }
  split; [|split].
  - apply Hin. rewrite Htools.
    destruct (String.eqb SESSION_TYPE "wayland"), c; cbn in *;
      try done; tauto.
  - by destruct c.
  - intros Hw. apply Hin. rewrite Htools, Hw. cbn. tauto.
Qed.

End CheckDependencies.

(** ** Trimming the log file *)

Section TrimLog.

Import Sys.

Abbreviation unbroken := (Forall (fun c => is_linebreak c = false)).

Lemma splitlines_from_line cur l rest :
  unbroken l ->
  splitlines_from cur (l ++ 10%N :: rest)
  = (cur ++ l) :: splitlines_from [] rest.
Proof.
  intros Hl. revert cur. induction Hl as [|c l Hc _ IH]; intros cur.
  { cbn. by rewrite app_nil_r. }
  cbn [app splitlines_from].
  destruct (c =? 13)%N eqn:E13.
  { apply N.eqb_eq in E13. by subst. }
  rewrite Hc, IH. by rewrite <- app_assoc.
Qed.

(** Every line [splitlines] gives is free of line boundaries. *)
Lemma splitlines_from_unbroken cur s :
  unbroken cur -> Forall unbroken (splitlines_from cur s).
Proof.
  revert cur.
  induction s as [s IH] using (induction_ltof1 _ (@length N)).
  unfold ltof in IH. intros cur Hcur. destruct s as [|c s].
  { cbn. destruct cur; [constructor|]. constructor; [done|constructor]. }
  cbn [splitlines_from]. destruct (c =? 13)%N.
  { destruct s as [|d s].
    - constructor; [done|]. apply IH; [cbn; lia|constructor].
    - assert (Forall unbroken (splitlines_from [] s)) as H1
        by (apply IH; [cbn; lia|constructor]).
      assert (Forall unbroken (splitlines_from [] (d :: s))) as H2
        by (apply IH; [cbn; lia|constructor]).
      destruct d as [|p]; [by constructor|].
      do 4 (destruct p as [p|p|]; try by constructor). }
  destruct (is_linebreak c) eqn:Hc.
  - constructor; [done|]. apply IH; [cbn; lia|constructor].
  - apply IH; [cbn; lia|]. apply Forall_app. by repeat constructor.
Qed.

(** Joining lines with line feeds, with one more at the end, and splitting
    again gives the lines back. *)
Lemma splitlines_join ls :
  ls <> [] -> Forall unbroken ls ->
  splitlines (join [10%N] ls ++ [10%N]) = ls.
Proof.
  intros Hne Hls. unfold splitlines.
  induction Hls as [|l ls Hl Hls IH]; [done|].
  destruct ls as [|l' ls].
  - cbn [join]. by rewrite splitlines_from_line.
  - change (join [10%N] (l :: l' :: ls))
      with (l ++ [10%N] ++ join [10%N] (l' :: ls)).
    rewrite <- !app_assoc. cbn [app].
    rewrite splitlines_from_line by done. cbn [app]. by rewrite IH.
Qed.

Lemma splitlines_from_nonempty cur s :
  cur <> [] -> splitlines_from cur s <> [].
Proof.
  revert cur. induction s as [|d t IH]; intros cur Hcur;
    cbn [splitlines_from].
  - by destruct cur.
  - destruct (d =? 13)%N.
    { destruct t as [|d' t]; [done|]. destruct d' as [|p]; [done|].
      do 4 (destruct p as [p|p|]; try done). }
    destruct (is_linebreak d); [done|]. apply IH. by destruct cur.
Qed.

Lemma splitlines_nil s : splitlines s = [] -> s = [].
Proof.
  unfold splitlines. destruct s as [|c s]; [done|]. cbn [splitlines_from].
  destruct (c =? 13)%N.
  { destruct s as [|d' t]; [done|]. destruct d' as [|p]; [done|].
    do 4 (destruct p as [p|p|]; try done). }
  destruct (is_linebreak c); [done|]. intros H.
  by apply splitlines_from_nonempty in H.
Qed.

Lemma written_cons e evs :
  written (e :: evs)
  = match e with WriteText content _ => [content] | _ => [] end
    ++ written evs.
Proof. by destruct e. Qed.

(** What a run of [trim_log] can be. *)
Lemma trim_log_spec w h :
  exists r evs,
    trim_log w h = (r, h ++ evs)
    /\ (forall e, r = inl e -> e = KeyboardInterrupt)
    /\ (written evs = []
        \/ exists size content raised,
             evs = [Exists (inr true); StatSize (inr size);
                    ReadText (inr content);
                    WriteText
                      (join [10%N] (last_lines 500 (splitlines content))
                       ++ [10%N]) raised]
             /\ (500000 < size)%N).
Proof.
  unfold trim_log. run_io.
  destruct (w_exists w h) as [e|[|]] eqn:E1.
  2: destruct (w_stat_size w _) as [e|size] eqn:E2.
  3: destruct (500000 <? size)%N eqn:Hsize.
  3: destruct (w_read_text w _) as [e|content] eqn:E3.
  4: destruct (w_write_text w _ _) as [e|] eqn:E4.
  all: try (destruct e; run_io).
  all: eexists _, _; (split; [trace_eq|]); (split; [by intros ? [=]|]).
  all: try (left; reflexivity).
  all: right; eexists _, _, _; (split; [reflexivity|]); by apply N.ltb_lt.
Qed.

(** X18. [trim_log] never lets an [Exception] out, whatever the file system
    does; it writes the file at most once, and only after the file was
    found to exist with a size above 500000 bytes and was read. *)
Theorem trim_log_guarded w h :
  (forall e, io_returned trim_log w h = inl e -> is_Exception e = false)
  /\ (length (written (io_emitted trim_log w h)) <= 1)%nat
  /\ (written (io_emitted trim_log w h) <> [] ->
      exists size content,
        take 3 (io_emitted trim_log w h)
        = [Exists (inr true); StatSize (inr size); ReadText (inr content)]
        /\ (500000 < size)%N).
Proof.
  destruct (trim_log_spec w h) as (r & evs & E & Hr & Hw).
  apply io_run_emitted in E as [-> ->]. split; [|split].
  - intros e He. by rewrite (Hr e He).
  - destruct Hw as [->|(size & content & raised & -> & _)]; cbn; lia.
  - destruct Hw as [->|(size & content & raised & -> & Hs)]; [done|].
    intros _. by exists size, content.
Qed.

(** X19. What [trim_log] writes ends in a line feed and holds at most 500
    lines; when the file read was not empty these are its last 500 lines,
    all of them when it had fewer. *)
Theorem trim_log_keeps_last_lines w h trimmed :
  In trimmed (written (io_emitted trim_log w h)) ->
  exists content,
    In (ReadText (inr content)) (io_emitted trim_log w h)
    /\ last trimmed = Some 10%N
    /\ (length (splitlines trimmed) <= 500)%nat
    /\ (content <> [] ->
        splitlines trimmed = last_lines 500 (splitlines content)
        /\ (length (splitlines content) <= 500 ->
            splitlines trimmed = splitlines content)%nat).
Proof.
  destruct (trim_log_spec w h) as (r & evs & E & _ & Hw).
  apply io_run_emitted in E as [_ ->].
  destruct Hw as [->|(size & content & raised & -> & _)]; [done|].
  cbn. intros [<-|[]]. exists content. split; [tauto|].
  split; [by rewrite last_snoc|].
  assert (length (last_lines 500 (splitlines content)) <= 500)%nat as Hlen.
  { unfold last_lines. rewrite length_drop. lia. }
  assert (Forall unbroken (last_lines 500 (splitlines content))) as Hub.
  { unfold last_lines. apply Forall_drop, splitlines_from_unbroken.
    constructor. }
  destruct (last_lines 500 (splitlines content)) as [|l ls] eqn:El.
  - split; [cbn; lia|]. intros Hc. exfalso. apply Hc, splitlines_nil.
    unfold last_lines in El.
    destruct (splitlines content) as [|x xs] eqn:Ex; [done|].
    apply (f_equal length) in El. rewrite length_drop in El.
    cbn in El. lia.
  - rewrite splitlines_join by done. split; [done|]. intros _.
    split; [done|]. intros Hle. rewrite <- El. unfold last_lines.
    by replace (length (splitlines content) - 500)%nat with 0%nat by lia.
Qed.

End TrimLog.

(** ** The connection loop *)

Section MainLoop.

Import Sys.

Variables broker port : Py.value.

Lemma connects_cons e evs :
  connects (e :: evs)
  = match e with Connect b p k _ => [(b, p, k)] | _ => [] end
    ++ connects evs.
Proof. by destruct e. Qed.

Lemma connects_app evs1 evs2 :
  connects (evs1 ++ evs2) = connects evs1 ++ connects evs2.
Proof. apply omap_app. Qed.

Ltac connects_simpl :=
  rewrite ?connects_app, ?connects_cons;
  change (connects []) with (@nil (Py.value * Py.value * Z));
  cbn [app length]; rewrite ?app_nil_r.

Lemma loop_end_later first r evs :
  loop_end broker port r evs -> loop_end broker port r (first ++ evs).
Proof.
  destruct r as [e|[[]|]]; cbn; [| |done].
  - intros (pre & [(e' & He' & ->)| ->]); exists (first ++ pre);
      [left; exists e'|right]; by rewrite <- app_assoc.
  - intros (pre & i & -> & Hi). exists (first ++ pre), i.
    by rewrite <- app_assoc.
Qed.

(** One more turn of the loop, after the events [first] of a turn that
    asked once for a connection. *)
Lemma main_loop_turn fuel w h first :
  (forall w h,
     exists r evs,
       main_loop broker port fuel w h = (r, h ++ evs)
       /\ Forall (fun c => c = (broker, port, 60%Z)) (connects evs)
       /\ (length (connects evs) <= fuel)%nat
       /\ (r = inr None -> length (connects evs) = fuel)
       /\ loop_end broker port r evs) ->
  connects first = [(broker, port, 60%Z)] ->
  exists r evs,
    main_loop broker port fuel w (h ++ first) = (r, h ++ evs)
    /\ Forall (fun c => c = (broker, port, 60%Z)) (connects evs)
    /\ (length (connects evs) <= S fuel)%nat
    /\ (r = inr None -> length (connects evs) = S fuel)
    /\ loop_end broker port r evs.
Proof.
  intros IH Hfirst.
  destruct (IH w (h ++ first)) as (r & evs & -> & Hall & Hlen & Hnone & Hend).
  exists r, (first ++ evs). split; [by rewrite <- app_assoc|].
  rewrite connects_app, Hfirst. cbn [app length].
  split; [by constructor|]. split; [lia|]. split.
  - intros Hr. by rewrite Hnone.
  - by apply loop_end_later.
Qed.

Lemma main_loop_spec fuel w h :
  exists r evs,
    main_loop broker port fuel w h = (r, h ++ evs)
    /\ Forall (fun c => c = (broker, port, 60%Z)) (connects evs)
    /\ (length (connects evs) <= fuel)%nat
    /\ (r = inr None -> length (connects evs) = fuel)
    /\ loop_end broker port r evs.
Proof.
  revert w h. induction fuel as [|fuel IH]; intros w h.
  { exists (inr None), []. cbn [main_loop]. run_io. rewrite app_nil_r.
    split; [done|]. split; [constructor|]. by split. }
  cbn [main_loop]. run_io.
  destruct (w_connect w h broker port) as [e|] eqn:Ec.
  2: destruct (w_loop_forever w _) as [e|] eqn:El.
  1, 2: destruct e; run_io.
  all: try match goal with
         | |- context [w_sleep ?w0 ?h0 10] =>
           destruct (w_sleep w0 h0 10) as [es|] eqn:Es
         | |- context [w_disconnect ?w0 ?h0] =>
           destruct (w_disconnect w0 h0) as [ed|] eqn:Ed
         end.
  all: rewrite <- ?app_assoc; cbn [app].
  all: try (apply main_loop_turn; [exact IH|done]).
  all: eexists _, _; (split; [reflexivity|]); connects_simpl.
  all: (split; [by repeat constructor|]); (split; [lia|]);
    (split; [done|]); cbn.
  all: try (eexists [_]; left; eexists; split; [|reflexivity]; done).
  all: try (eexists [_; _]; left; eexists; split; [|reflexivity]; done).
  all: try (eexists [_]; right; reflexivity).
  all: try (eexists [_; _]; right; reflexivity).
  all: try (eexists [], _; split; [reflexivity|]; by left).
  all: try (eexists [_], _; split; [reflexivity|]; by right).
Qed.

(** X20. The loop returns only after [connect] or [loop_forever] was
    interrupted from the keyboard, and then it has logged the shutdown and
    disconnected as its last acts.  An exception leaves the loop only out
    of the sleep that follows a connection error, or out of that
    [disconnect]; in the first case the client is not disconnected. *)
Theorem main_loop_exits fuel w h :
  match io_returned (main_loop broker port fuel) w h with
  | inr (Some _) =>
    exists pre i,
      io_emitted (main_loop broker port fuel) w h
      = pre ++ [i; Log shutting_down; Disconnect None]
      /\ (i = Connect broker port 60 (Some KeyboardInterrupt)
          \/ i = LoopForever (Some KeyboardInterrupt))
  | inr None => True
  | inl e =>
    exists pre,
      (exists e',
         is_Exception e' = true
         /\ io_emitted (main_loop broker port fuel) w h
            = pre ++ [Log (connection_error e'); Sleep 10 (Some e)])
      \/ io_emitted (main_loop broker port fuel) w h
         = pre ++ [Log shutting_down; Disconnect (Some e)]
  end.
Proof.
  destruct (main_loop_spec fuel w h) as (r & evs & E & _ & _ & _ & Hend).
  by apply io_run_emitted in E as [-> ->].
Qed.

(** X21. Every connection the loop asks for is to the configured broker and
    port with a keep-alive of 60 seconds, and there is at most one for each
    turn of the loop. *)
Theorem main_loop_connects fuel w h :
  Forall (fun c => c = (broker, port, 60%Z))
    (connects (io_emitted (main_loop broker port fuel) w h))
  /\ (length (connects (io_emitted (main_loop broker port fuel) w h))
      <= fuel)%nat.
Proof.
  destruct (main_loop_spec fuel w h) as (r & evs & E & Hall & Hlen & _).
  by apply io_run_emitted in E as [_ ->].
Qed.

(** X22. While nothing interrupts [connect] or [loop_forever] from the keyboard
    and the sleep between two tries is not disturbed, the loop does not
    end: whatever the number of turns allowed, it uses them all, asking for
    a connection in each one, whatever else the client raises. *)
Theorem main_loop_never_gives_up w :
  (forall h, w_connect w h broker port <> Some KeyboardInterrupt) ->
  (forall h, w_loop_forever w h <> Some KeyboardInterrupt) ->
  (forall h, w_sleep w h 10 = None) ->
  forall fuel h,
    io_returned (main_loop broker port fuel) w h = inr None
    /\ length (connects (io_emitted (main_loop broker port fuel) w h))
       = fuel.
Proof.
  intros Hc Hl Hs fuel h.
  assert (exists evs,
            main_loop broker port fuel w h = (inr None, h ++ evs)
            /\ length (connects evs) = fuel) as (evs & E & Hlen).
  { revert h. induction fuel as [|fuel IH]; intros h.
    { exists []. cbn [main_loop]. run_io. by rewrite app_nil_r. }
    cbn [main_loop]. run_io. specialize (Hc h).
    destruct (w_connect w h broker port) as [e|] eqn:Ec.
    2: specialize (Hl (h ++ [Connect broker port 60 None]));
       destruct (w_loop_forever w _) as [e|] eqn:El.
    1, 2: destruct e; try done; run_io; rewrite Hs.
    all: match goal with
         | |- context [main_loop _ _ _ _ ?h0] =>
           destruct (IH h0) as (evs & -> & Hlen)
         end.
    all: eexists; (split; [trace_eq|]); connects_simpl; by rewrite Hlen. }
  by apply io_run_emitted in E as [-> ->].
Qed.

End MainLoop.

(** ** Concrete runs of the setup and session code *)

Lemma threshold_type_error_witness :
  handle_wake ascii_tables "x11" null_threshold_config
    (x11_world "45000" "Off") []
  = (inl Py.TypeError, [Run xprintidle]).
Proof.
  destruct (threshold_type_error ascii_tables "x11" null_threshold_config
              (x11_world "45000" "Off") []) as [Hbad _].
  apply Hbad. vm_compute. reflexivity.
Defined.

Lemma xprintidle_milliseconds_witness :
  get_idle_seconds_x11 ascii_tables (x11_world " 61234 " "Off") []
  = (inr 61%Z, [Run xprintidle]).
Proof.
  apply (xprintidle_milliseconds ascii_tables (x11_world " 61234 " "Off") []
           61234 [32%N] [32%N]).
  - reflexivity.
  - repeat constructor.
  - repeat constructor.
  - reflexivity.
Defined.

Lemma ignore_iff_milliseconds_below_witness :
  decision_taken
    (emitted (handle_wake ascii_tables "x11" office_config)
       (x11_world "29999" "Off") []) = Ignore
  <-> (Z.of_N 29999 < 1000 * 30)%Z.
Proof.
  apply (ignore_iff_milliseconds_below ascii_tables "x11" office_config
           (x11_world "29999" "Off") [] 29999 [] [] 30).
  - reflexivity.
  - reflexivity.
  - constructor.
  - constructor.
  - reflexivity.
  - vm_compute. reflexivity.
Defined.

Lemma utf8_payload_round_trip_witness :
  Py.decode (payload_of_text (text_of_string " wake" ++ [0x2028%N]))
  = text_of_string " wake" ++ [0x2028%N]
  /\ on_message ascii_tables "x11" office_config
       (payload_of_text (text_of_string " wake" ++ [0x2028%N]))
       (x11_world "45000" "Off") []
     = if bool_decide
            (Py.strip (text_of_string " wake" ++ [0x2028%N])
             = text_of_string "wake")
       then handle_wake ascii_tables "x11" office_config
              (x11_world "45000" "Off") []
       else (inr tt, []).
Proof.
  apply (utf8_payload_round_trip ascii_tables "x11" office_config
           (text_of_string " wake" ++ [0x2028%N])
           (x11_world "45000" "Off") []).
  repeat constructor.
Defined.

Lemma impossible_byte_ignored_witness :
  on_message ascii_tables "x11" office_config
    (bytes_of_string "wake" ++ [xff]) (x11_world "45000" "Off") []
  = (inr tt, []).
Proof.
  apply (impossible_byte_ignored ascii_tables "x11" office_config
           (bytes_of_string "wake" ++ [xff]) xff).
  - cbn. tauto.
  - right. right. vm_compute. discriminate.
Defined.

Lemma dpms_timeout_least_positive_witness :
  exists seconds,
    returned (get_dpms_timeout_seconds ascii_tables "x11")
      (dpms_world "600" "0" "900") [] = inr seconds
    /\ (seconds = 0 <-> 600 <= 0 /\ 0 <= 0 /\ 900 <= 0)%Z
    /\ (seconds <> 0 ->
        In seconds [600; 0; 900]
        /\ Forall (fun v => 0 < v -> seconds <= v) [600; 0; 900])%Z.
Proof.
  apply (dpms_timeout_least_positive ascii_tables "x11"
           (dpms_world "600" "0" "900") []
           (text_of_string "  Standby: 600    Suspend: 0    Off: 900")
           (text_of_string "600") (text_of_string "0")
           (text_of_string "900")).
  - reflexivity.
  - reflexivity.
  - vm_compute. reflexivity.
  - vm_compute. reflexivity.
  - vm_compute. reflexivity.
  - vm_compute. reflexivity.
Defined.

Lemma dpms_timeout_other_session_witness :
  get_dpms_timeout_seconds ascii_tables "tty" (dpms_world "600" "0" "900") []
  = (inr 0%Z, [])
  /\ is_screen_off ascii_tables "tty" = is_screen_off_x11 ascii_tables
  /\ get_idle_seconds ascii_tables "tty" = get_idle_seconds_x11 ascii_tables
  /\ power_query "tty" = xset_q.
Proof.
  apply (dpms_timeout_other_session ascii_tables "tty"
           (dpms_world "600" "0" "900") []).
  - reflexivity.
  - reflexivity.
Defined.

Lemma prompt_answer_witness :
  (text_of_string "1883" <> [] -> text_of_string "8883" <> [])
  /\ (text_of_string "8883" = text_of_string "1883"
      \/ (Py.strip (text_of_string "8883") = text_of_string "8883"
          /\ exists question typed,
               io_emitted
                 (Sys.prompt (text_of_string "MQTT port")
                    (text_of_string "1883"))
                 (desk_world (text_of_string " 8883 ") []) []
               = [Sys.Input question (inr typed)]
               /\ text_of_string "8883" = Py.strip typed)).
Proof.
  apply (prompt_answer (text_of_string "MQTT port") (text_of_string "1883")
           (desk_world (text_of_string " 8883 ") []) []).
  vm_compute. reflexivity.
Defined.

Lemma checked_tools_cover_commands_witness :
  In (executable xset_dpms_force_on, true)
    (looked_for
       (io_emitted (Sys.check_dependencies "x11") (desk_world [] []) []))
  /\ executable xset_dpms_force_on <> "xdotool"
  /\ (is_wayland "x11" = false ->
      In ("xdotool", true)
        (looked_for
           (io_emitted (Sys.check_dependencies "x11")
              (desk_world [] []) []))).
Proof.
  apply (checked_tools_cover_commands ascii_tables "x11" (desk_world [] []) []
           office_config (bytes_of_string "wake")
           (x11_world "45000" "Off") []).
  - vm_compute. reflexivity.
  - vm_compute. tauto.
Defined.

Lemma trim_log_keeps_last_lines_witness :
  exists content,
    In (Sys.ReadText (inr content))
      (io_emitted Sys.trim_log
         (desk_world [] (text_of_string "woke" ++ [13; 10]%N
                         ++ text_of_string "slept")) [])
    /\ last (text_of_string "woke" ++ [10%N] ++ text_of_string "slept"
             ++ [10%N]) = Some 10%N
    /\ (length
          (Sys.splitlines
             (text_of_string "woke" ++ [10%N] ++ text_of_string "slept"
              ++ [10%N])) <= 500)%nat
    /\ (content <> [] ->
        Sys.splitlines
          (text_of_string "woke" ++ [10%N] ++ text_of_string "slept"
           ++ [10%N])
        = Sys.last_lines 500 (Sys.splitlines content)
        /\ (length (Sys.splitlines content) <= 500 ->
            Sys.splitlines
              (text_of_string "woke" ++ [10%N] ++ text_of_string "slept"
               ++ [10%N])
            = Sys.splitlines content)%nat).
Proof.
  apply (trim_log_keeps_last_lines
           (desk_world [] (text_of_string "woke" ++ [13; 10]%N
                           ++ text_of_string "slept")) []).
  vm_compute. left. reflexivity.
Defined.

Lemma main_loop_never_gives_up_witness :
  io_returned (Sys.main_loop (Py.Str (text_of_string "10.0.0.2"))
                 (Py.Int 1883) 3) (desk_world [] []) [] = inr None
  /\ length
       (connects
          (io_emitted (Sys.main_loop (Py.Str (text_of_string "10.0.0.2"))
                         (Py.Int 1883) 3) (desk_world [] []) [])) = 3%nat.
Proof.
  apply (main_loop_never_gives_up (Py.Str (text_of_string "10.0.0.2"))
           (Py.Int 1883) (desk_world [] [])).
  - intros h. discriminate.
  - intros h. discriminate.
  - intros h. reflexivity.
Defined.
